(** * floppi: the drone lift calculator

    A shallow embedding of [optimization_tools/lift_calculator.py]: the
    [DroneCalculator] physics methods, the aggregation performed by
    [DroneCalculatorGUI.update_calculations] and the grid search of
    [DroneCalculatorGUI.run_optimization].

    Python floats are idealised as real numbers.  Python's float division
    raises [ZeroDivisionError] on a zero divisor; that is kept, so every
    method that divides returns a [result]. *)

From Stdlib Require Import Reals Lra List ZArith.
From Stdlib Require Import Machin.
Import ListNotations.

Open Scope R_scope.

(** ** Python values and exceptions *)

Module Py.

(** [ZeroDivisionError] is Python's exception.  [ComplexResult] is not
    one: it marks a value that has left the reals of this model, where
    Python goes on with a complex number and raises nothing at that
    point.  Only a negative thrust leads there, and every statement
    below about the power has a thrust that is not negative. *)
Inductive exn : Type :=
| ZeroDivisionError
| ComplexResult.

Inductive result (A : Type) : Type :=
| Ok (a : A)
| Raise (e : exn).

Arguments Ok {A} a.
Arguments Raise {A} e.

Definition bind {A B : Type} (m : result A) (k : A -> result B) : result B :=
  match m with
  | Ok a => k a
  | Raise e => Raise e
  end.

(** [x / y] on floats. *)
Definition truediv (x y : R) : result R :=
  if Req_dec_T y 0 then Raise ZeroDivisionError else Ok (x / y).

(** [x ** 1.5] on floats: the real power for a positive base, [0.0] at
    zero; for a negative base Python leaves the floats (the value is a
    complex number), which the model reports as [ComplexResult]. *)
Definition pow_1_5 (x : R) : result R :=
  if Rgt_dec x 0 then Ok (Rpower x 1.5)
  else if Req_dec_T x 0 then Ok 0
  else Raise ComplexResult.

(** [for x in xs: body], threading the loop-carried state; an exception
    in the body leaves the loop. *)
Fixpoint for_in {A S : Type} (xs : list A) (body : A -> S -> result S)
         (s : S) : result S :=
  match xs with
  | [] => Ok s
  | x :: xs' => bind (body x s) (for_in xs' body)
  end.

End Py.

Import Py.

Notation "x <- m ;; k" := (Py.bind m (fun x => k))
  (at level 61, m at next level, right associativity).

(** ** class DroneCalculator *)

Record DroneCalculator : Type := {
  air_density : R;
  gravity : R
}.

(** [DroneCalculator.__init__] *)
Definition DroneCalculator_init : DroneCalculator :=
  {| air_density := 1.225; gravity := 9.81 |}.

Definition calculate_propeller_thrust (self : DroneCalculator)
           (diameter pitch rpm efficiency : R) : result R :=
  let diameter_m := diameter * 0.0254 in
  let pitch_m := pitch * 0.0254 in
  advance_ratio <-
    (if Rgt_dec rpm 0
     then truediv (rpm * pitch_m / 60) (rpm * diameter_m / 60)
     else Ok 0) ;;
  let disk_area := PI * (diameter_m / 2) ^ 2 in
  let tip_speed := (rpm / 60) * PI * diameter_m in
  let thrust_coeff := 0.1 * (1 - advance_ratio) * efficiency in
  let thrust_coeff := Rmax 0 thrust_coeff in
  let thrust_newtons :=
    thrust_coeff * air_density self * disk_area * (tip_speed ^ 2) in
  let thrust_grams := thrust_newtons * 101.97 in
  Ok (Rmax 0 thrust_grams).

Definition calculate_motor_rpm (self : DroneCalculator)
           (voltage kv load_current : R) : R :=
  let back_emf_loss := load_current * 0.1 in
  let effective_voltage := Rmax 0 (voltage - back_emf_loss) in
  let rpm := kv * effective_voltage in
  rpm.

Definition calculate_power_consumption (self : DroneCalculator)
           (thrust_grams motor_efficiency : R) : result R :=
  let thrust_newtons := thrust_grams / 101.97 in
  p <- pow_1_5 thrust_newtons ;;
  power_watts <- truediv p (motor_efficiency * 10) ;;
  Ok power_watts.

Definition calculate_flight_time (self : DroneCalculator)
           (battery_capacity_mah total_power_watts voltage : R) : result R :=
  if Rle_dec total_power_watts 0 then Ok 0
  else
    current_amps <- truediv total_power_watts voltage ;;
    flight_time_hours <- truediv (battery_capacity_mah / 1000) current_amps ;;
    Ok (flight_time_hours * 60).

(** Default arguments of the methods. *)
Definition default_efficiency : R := 0.8.
Definition default_motor_efficiency : R := 0.85.
Definition default_load_current : R := 0.

(** ** class DroneCalculatorGUI

    The widgets read by the two computations, each holding the value its
    [.value()] (or [.isChecked()]) returns.  Efficiencies are percentages. *)

Record DroneCalculatorGUI : Type := {
  prop_diameter : R;
  prop_pitch : R;
  prop_efficiency : R;
  motor_kv : R;
  motor_efficiency : R;
  motor_weight : R;
  num_motors : Z;
  battery_voltage : R;
  battery_capacity : R;
  battery_weight : R;
  esc_weight : R;
  frame_weight : R;
  flight_controller_weight : R;
  camera_weight : R;
  additional_payload : R;
  wiring_weight : R;
  opt_prop_diameter : bool;
  opt_motor_kv : bool;
  opt_battery_capacity : bool;
  opt_num_motors : bool;
  max_weight : R;
  min_flight_time : R;
  max_cost : R
}.

(** [self.calculator = DroneCalculator()] *)
Definition calculator : DroneCalculator := DroneCalculator_init.

(** The six values written to [result_labels]. *)
Record PerformanceResult : Type := {
  r_total_weight : R;
  r_total_thrust : R;
  r_twr : R;
  r_flight_time : R;
  r_total_power : R;
  r_max_payload : R
}.

(** [update_calculations], up to the point where the result labels are
    set.  A [Raise] is the exception caught by the method's [except]
    clause, in which case no label is updated. *)
Definition update_calculations (self : DroneCalculatorGUI)
  : result PerformanceResult :=
  let prop_diameter := prop_diameter self in
  let prop_pitch := prop_pitch self in
  let motor_kv := motor_kv self in
  let battery_voltage := battery_voltage self in
  let num_motors := IZR (num_motors self) in
  let rpm :=
    calculate_motor_rpm calculator battery_voltage motor_kv
                        default_load_current in
  thrust_per_motor <-
    calculate_propeller_thrust calculator prop_diameter prop_pitch rpm
                               (prop_efficiency self / 100) ;;
  let total_thrust := thrust_per_motor * num_motors in
  let total_weight :=
    motor_weight self * num_motors +
    battery_weight self +
    esc_weight self * num_motors +
    frame_weight self +
    flight_controller_weight self +
    camera_weight self +
    additional_payload self +
    wiring_weight self in
  twr <-
    (if Rgt_dec total_weight 0 then truediv total_thrust total_weight
     else Ok 0) ;;
  power_per_motor <-
    calculate_power_consumption calculator thrust_per_motor
                                (motor_efficiency self / 100) ;;
  let total_power := power_per_motor * num_motors in
  flight_time <-
    calculate_flight_time calculator (battery_capacity self) total_power
                          battery_voltage ;;
  let max_payload :=
    Rmax 0 (total_thrust / 2 - (total_weight - additional_payload self)) in
  Ok {| r_total_weight := total_weight;
        r_total_thrust := total_thrust;
        r_twr := twr;
        r_flight_time := flight_time;
        r_total_power := total_power;
        r_max_payload := max_payload |}.

(** *** run_optimization *)

Inductive Param : Type :=
| PropellerDiameter
| MotorKV
| BatteryCapacity
| NumberOfMotors.

Definition Param_eqb (a b : Param) : bool :=
  match a, b with
  | PropellerDiameter, PropellerDiameter
  | MotorKV, MotorKV
  | BatteryCapacity, BatteryCapacity
  | NumberOfMotors, NumberOfMotors => true
  | _, _ => false
  end.

(** [p in optimize_params] *)
Definition param_in (p : Param) (optimize_params : list Param) : bool :=
  existsb (Param_eqb p) optimize_params.

(** The [best_config] dictionary. *)
Record BestConfig : Type := {
  cfg_prop_diameter : R;
  cfg_motor_kv : R;
  cfg_battery_capacity : R;
  cfg_motor_count : Z;
  cfg_twr : R;
  cfg_flight_time : R;
  cfg_total_weight : R;
  cfg_power : R;
  cfg_score : R
}.

(** What the method reports in [optimize_results]. *)
Inductive Outcome : Type :=
| NoParametersSelected
| Found (best_config : BestConfig)
| NoValidConfiguration.

(** The metrics computed at the top of the loop body for one combination. *)
Record Metrics : Type := {
  m_total_thrust : R;
  m_total_weight : R;
  m_twr : R;
  m_power : R;
  m_flight_time : R
}.

Definition candidate_metrics (self : DroneCalculatorGUI)
           (prop_d motor_kv battery_cap : R) (motor_count : Z)
  : result Metrics :=
  let rpm :=
    calculate_motor_rpm calculator (battery_voltage self) motor_kv
                        default_load_current in
  thrust_per_motor <-
    calculate_propeller_thrust calculator prop_d (prop_pitch self) rpm
                               default_efficiency ;;
  let total_thrust := thrust_per_motor * IZR motor_count in
  let total_weight :=
    motor_weight self * IZR motor_count +
    battery_weight self +
    frame_weight self +
    flight_controller_weight self +
    camera_weight self +
    additional_payload self +
    wiring_weight self in
  twr <-
    (if Rgt_dec total_weight 0 then truediv total_thrust total_weight
     else Ok 0) ;;
  p <-
    calculate_power_consumption calculator thrust_per_motor
                                default_motor_efficiency ;;
  let power := p * IZR motor_count in
  flight_time <-
    calculate_flight_time calculator battery_cap power
                          (battery_voltage self) ;;
  Ok {| m_total_thrust := total_thrust;
        m_total_weight := total_weight;
        m_twr := twr;
        m_power := power;
        m_flight_time := flight_time |}.

Definition score_of (m : Metrics) : R :=
  (m_twr m * 30) + (m_flight_time m * 2) - (m_total_weight m * 0.01)
  - (m_power m * 0.1).

(** Loop-carried state: [(best_score, best_config)]. *)
Definition SearchState : Type := (R * option BestConfig)%type.

(** The rest of the loop body: the two [continue] guards, the score and
    the update of the best configuration. *)
Definition consider (self : DroneCalculatorGUI)
           (prop_d motor_kv battery_cap : R) (motor_count : Z)
           (m : Metrics) (st : SearchState) : SearchState :=
  let best_score := fst st in
  if Rgt_dec (m_total_weight m) (max_weight self) then st
  else if Rlt_dec (m_flight_time m) (min_flight_time self) then st
  else
    let score := score_of m in
    if Rgt_dec score best_score then
      if Rge_dec (m_twr m) 1 then
        (score,
         Some {| cfg_prop_diameter := prop_d;
                 cfg_motor_kv := motor_kv;
                 cfg_battery_capacity := battery_cap;
                 cfg_motor_count := motor_count;
                 cfg_twr := m_twr m;
                 cfg_flight_time := m_flight_time m;
                 cfg_total_weight := m_total_weight m;
                 cfg_power := m_power m;
                 cfg_score := score |})
      else st
    else st.

Definition loop_body (self : DroneCalculatorGUI)
           (prop_d motor_kv battery_cap : R) (motor_count : Z)
           (st : SearchState) : result SearchState :=
  m <- candidate_metrics self prop_d motor_kv battery_cap motor_count ;;
  Ok (consider self prop_d motor_kv battery_cap motor_count m st).

Definition optimize_params (self : DroneCalculatorGUI) : list Param :=
  (if opt_prop_diameter self then [PropellerDiameter] else []) ++
  (if opt_motor_kv self then [MotorKV] else []) ++
  (if opt_battery_capacity self then [BatteryCapacity] else []) ++
  (if opt_num_motors self then [NumberOfMotors] else []).

Definition prop_diameters (self : DroneCalculatorGUI) : list R :=
  if param_in PropellerDiameter (optimize_params self)
  then [8; 10; 12; 14] else [prop_diameter self].

Definition motor_kvs (self : DroneCalculatorGUI) : list R :=
  if param_in MotorKV (optimize_params self)
  then [800; 1000; 1200; 1500] else [motor_kv self].

Definition battery_caps (self : DroneCalculatorGUI) : list R :=
  if param_in BatteryCapacity (optimize_params self)
  then [3000; 5000; 8000; 10000] else [battery_capacity self].

Definition motor_counts (self : DroneCalculatorGUI) : list Z :=
  if param_in NumberOfMotors (optimize_params self)
  then [3; 4; 6; 8]%Z else [num_motors self].

(** A [Raise] is an exception escaping the method (it has no handler). *)
Definition run_optimization (self : DroneCalculatorGUI) : result Outcome :=
  match optimize_params self with
  | [] => Ok NoParametersSelected
  | _ :: _ =>
    st <-
      for_in (prop_diameters self) (fun prop_d =>
        for_in (motor_kvs self) (fun motor_kv =>
          for_in (battery_caps self) (fun battery_cap =>
            for_in (motor_counts self) (fun motor_count =>
              loop_body self prop_d motor_kv battery_cap motor_count))))
        (0, None) ;;
    match snd st with
    | Some best_config => Ok (Found best_config)
    | None => Ok NoValidConfiguration
    end
  end.

(** ** The formulas as the specification words them *)

Module Spec.

(** [x^1.5] for a non-negative real [x]. *)
Definition pow_three_halves (x : R) : R := x * sqrt x.

Definition powerConsumption (thrustGrams motorEfficiency : R) : R :=
  pow_three_halves (thrustGrams / 101.97) / (motorEfficiency * 10).

Definition flightTimeMinutes (capacityMah powerWatts voltage : R) : R :=
  ((capacityMah / 1000) / (powerWatts / voltage)) * 60.

(** Step 4 of the evaluator. *)
Definition totalWeight (frame flightController camera payload wiring
                        motorWeight escWeight batteryWeight : R)
           (motorCount : Z) : R :=
  (frame + flightController + camera + payload + wiring)
  + motorWeight * IZR motorCount
  + escWeight * IZR motorCount
  + batteryWeight.

End Spec.


(** ** GUI states used as test vectors *)

(** The values the widgets are created with; this is also the regression
    scenario of the specification. *)
Definition default_gui : DroneCalculatorGUI :=
  {| prop_diameter := 10;
     prop_pitch := 4.5;
     prop_efficiency := 80;
     motor_kv := 1000;
     motor_efficiency := 85;
     motor_weight := 50;
     num_motors := 4;
     battery_voltage := 11.1;
     battery_capacity := 5000;
     battery_weight := 300;
     esc_weight := 25;
     frame_weight := 200;
     flight_controller_weight := 30;
     camera_weight := 100;
     additional_payload := 0;
     wiring_weight := 50;
     opt_prop_diameter := false;
     opt_motor_kv := false;
     opt_battery_capacity := false;
     opt_num_motors := false;
     max_weight := 2000;
     min_flight_time := 10;
     max_cost := 500 |}.

Definition set_num_motors (g : DroneCalculatorGUI) (k : Z)
  : DroneCalculatorGUI :=
  {| prop_diameter := prop_diameter g;
     prop_pitch := prop_pitch g;
     prop_efficiency := prop_efficiency g;
     motor_kv := motor_kv g;
     motor_efficiency := motor_efficiency g;
     motor_weight := motor_weight g;
     num_motors := k;
     battery_voltage := battery_voltage g;
     battery_capacity := battery_capacity g;
     battery_weight := battery_weight g;
     esc_weight := esc_weight g;
     frame_weight := frame_weight g;
     flight_controller_weight := flight_controller_weight g;
     camera_weight := camera_weight g;
     additional_payload := additional_payload g;
     wiring_weight := wiring_weight g;
     opt_prop_diameter := opt_prop_diameter g;
     opt_motor_kv := opt_motor_kv g;
     opt_battery_capacity := opt_battery_capacity g;
     opt_num_motors := opt_num_motors g;
     max_weight := max_weight g;
     min_flight_time := min_flight_time g;
     max_cost := max_cost g |}.

(** The default state with a dead battery and motors of efficiency 0. *)
Definition dead_battery_gui : DroneCalculatorGUI :=
  {| prop_diameter := 10;
     prop_pitch := 4.5;
     prop_efficiency := 80;
     motor_kv := 1000;
     motor_efficiency := 0;
     motor_weight := 50;
     num_motors := 4;
     battery_voltage := 0;
     battery_capacity := 5000;
     battery_weight := 300;
     esc_weight := 25;
     frame_weight := 200;
     flight_controller_weight := 30;
     camera_weight := 100;
     additional_payload := 0;
     wiring_weight := 50;
     opt_prop_diameter := false;
     opt_motor_kv := false;
     opt_battery_capacity := false;
     opt_num_motors := false;
     max_weight := 2000;
     min_flight_time := 10;
     max_cost := 500 |}.

(** ** The search space of [run_optimization] *)

(** One combination [(prop_d, motor_kv, battery_cap, motor_count)]. *)
Definition Candidate : Type := (R * R * R * Z)%type.

(** The combinations in the order the four nested loops visit them. *)
Definition grid (self : DroneCalculatorGUI) : list Candidate :=
  flat_map (fun prop_d =>
    flat_map (fun motor_kv =>
      flat_map (fun battery_cap =>
        map (fun motor_count => (prop_d, motor_kv, battery_cap, motor_count))
            (motor_counts self))
        (battery_caps self))
      (motor_kvs self))
    (prop_diameters self).

Definition metrics_of (self : DroneCalculatorGUI) (c : Candidate)
  : result Metrics :=
  let '(prop_d, motor_kv, battery_cap, motor_count) := c in
  candidate_metrics self prop_d motor_kv battery_cap motor_count.

Definition visit (self : DroneCalculatorGUI) (c : Candidate)
           (st : SearchState) : result SearchState :=
  let '(prop_d, motor_kv, battery_cap, motor_count) := c in
  loop_body self prop_d motor_kv battery_cap motor_count st.

(** The dictionary stored for combination [c] with metrics [m]. *)
Definition config_of (c : Candidate) (m : Metrics) : BestConfig :=
  let '(prop_d, motor_kv, battery_cap, motor_count) := c in
  {| cfg_prop_diameter := prop_d;
     cfg_motor_kv := motor_kv;
     cfg_battery_capacity := battery_cap;
     cfg_motor_count := motor_count;
     cfg_twr := m_twr m;
     cfg_flight_time := m_flight_time m;
     cfg_total_weight := m_total_weight m;
     cfg_power := m_power m;
     cfg_score := score_of m |}.

(** The two constraints and the thrust-to-weight bar, on the metrics the
    loop computes. *)
Definition admissible (self : DroneCalculatorGUI) (m : Metrics) : Prop :=
  m_total_weight m <= max_weight self
  /\ m_flight_time m >= min_flight_time self
  /\ m_twr m >= 1.

(** The widgets after the combination [c] has been entered in them: the
    configuration built from the template with [c] substituted. *)
Definition substitute (self : DroneCalculatorGUI) (c : Candidate)
  : DroneCalculatorGUI :=
  let '(prop_d, kv, battery_cap, motor_count) := c in
  {| prop_diameter := prop_d;
     prop_pitch := prop_pitch self;
     prop_efficiency := prop_efficiency self;
     motor_kv := kv;
     motor_efficiency := motor_efficiency self;
     motor_weight := motor_weight self;
     num_motors := motor_count;
     battery_voltage := battery_voltage self;
     battery_capacity := battery_cap;
     battery_weight := battery_weight self;
     esc_weight := esc_weight self;
     frame_weight := frame_weight self;
     flight_controller_weight := flight_controller_weight self;
     camera_weight := camera_weight self;
     additional_payload := additional_payload self;
     wiring_weight := wiring_weight self;
     opt_prop_diameter := opt_prop_diameter self;
     opt_motor_kv := opt_motor_kv self;
     opt_battery_capacity := opt_battery_capacity self;
     opt_num_motors := opt_num_motors self;
     max_weight := max_weight self;
     min_flight_time := min_flight_time self;
     max_cost := max_cost self |}.

(** What the search has established after visiting [visited]. *)
Definition search_inv (self : DroneCalculatorGUI) (visited : list Candidate)
           (st : SearchState) : Prop :=
  match snd st with
  | None =>
    fst st = 0
    /\ forall c m, In c visited -> metrics_of self c = Ok m ->
                   admissible self m -> score_of m <= 0
  | Some b =>
    exists l1 c l2 m,
      visited = l1 ++ c :: l2
      /\ metrics_of self c = Ok m
      /\ admissible self m
      /\ b = config_of c m
      /\ fst st = score_of m
      /\ 0 < score_of m
      /\ (forall c' m', In c' l1 -> metrics_of self c' = Ok m' ->
                        admissible self m' -> score_of m' < score_of m)
      /\ (forall c' m', In c' l2 -> metrics_of self c' = Ok m' ->
                        admissible self m' -> score_of m' <= score_of m)
  end.

(** The check boxes of the optimize tab set to [a], [b], [c], [d]. *)
Definition select (g : DroneCalculatorGUI) (a b c d : bool)
  : DroneCalculatorGUI :=
  {| prop_diameter := prop_diameter g;
     prop_pitch := prop_pitch g;
     prop_efficiency := prop_efficiency g;
     motor_kv := motor_kv g;
     motor_efficiency := motor_efficiency g;
     motor_weight := motor_weight g;
     num_motors := num_motors g;
     battery_voltage := battery_voltage g;
     battery_capacity := battery_capacity g;
     battery_weight := battery_weight g;
     esc_weight := esc_weight g;
     frame_weight := frame_weight g;
     flight_controller_weight := flight_controller_weight g;
     camera_weight := camera_weight g;
     additional_payload := additional_payload g;
     wiring_weight := wiring_weight g;
     opt_prop_diameter := a;
     opt_motor_kv := b;
     opt_battery_capacity := c;
     opt_num_motors := d;
     max_weight := max_weight g;
     min_flight_time := min_flight_time g;
     max_cost := max_cost g |}.

(** The default state with all four parameters selected. *)
Definition all_axes_gui : DroneCalculatorGUI :=
  select default_gui true true true true.

(** A heavy two-motor vehicle on a single cell, every value within the
    range of its widget, with only the battery capacity selected. *)
Definition heavy_gui : DroneCalculatorGUI :=
  {| prop_diameter := 20;
     prop_pitch := 10;
     prop_efficiency := 80;
     motor_kv := 750;
     motor_efficiency := 85;
     motor_weight := 500;
     num_motors := 2;
     battery_voltage := 3.7;
     battery_capacity := 5000;
     battery_weight := 2000;
     esc_weight := 25;
     frame_weight := 1000;
     flight_controller_weight := 200;
     camera_weight := 1000;
     additional_payload := 4500;
     wiring_weight := 200;
     opt_prop_diameter := false;
     opt_motor_kv := false;
     opt_battery_capacity := true;
     opt_num_motors := false;
     max_weight := 10000;
     min_flight_time := 1;
     max_cost := 500 |}.

(** ** The rest of the window: ranges, analysis text and graph data *)

(** The ranges given to the widgets by [create_input_row] and
    [create_spin_row] ([setRange(min_val, max_val)]) in
    [create_custom_mode_tab] and [create_optimize_mode_tab]: a spin box
    holds a value of its range. *)
Definition within_widget_ranges (g : DroneCalculatorGUI) : Prop :=
  1 <= prop_diameter g <= 20
  /\ 1 <= prop_pitch g <= 15
  /\ 50 <= prop_efficiency g <= 95
  /\ 100 <= motor_kv g <= 5000
  /\ 70 <= motor_efficiency g <= 95
  /\ 10 <= motor_weight g <= 500
  /\ (1 <= num_motors g <= 8)%Z
  /\ 3.7 <= battery_voltage g <= 48
  /\ 500 <= battery_capacity g <= 20000
  /\ 50 <= battery_weight g <= 2000
  /\ 5 <= esc_weight g <= 100
  /\ 50 <= frame_weight g <= 1000
  /\ 10 <= flight_controller_weight g <= 200
  /\ 0 <= camera_weight g <= 1000
  /\ 0 <= additional_payload g <= 5000
  /\ 10 <= wiring_weight g <= 200
  /\ 500 <= max_weight g <= 10000
  /\ 1 <= min_flight_time g <= 120
  /\ 100 <= max_cost g <= 5000.

(** The lines [update_analysis] appends to [analysis]; the last two carry
    the numbers their format strings print. *)
Inductive AnalysisLine : Type :=
| TwrCritical
| TwrCriticalRecommendations
| TwrWarning
| TwrWarningRecommendations
| TwrGood
| FlightTimeVeryShort
| FlightTimeModerate
| FlightTimeGood
| HighPowerConsumption
| TotalSystemWeight (weight : R)
| PowerLoading (watts_per_gram : R).

(** [update_analysis]: the list joined into [analysis_text].  The power
    loading [power/weight] is evaluated inside its format string, before
    the text is set. *)
Definition update_analysis (twr flight_time power weight : R)
  : result (list AnalysisLine) :=
  let analysis := [] in
  let analysis :=
    if Rlt_dec twr 1 then
      analysis ++ [TwrCritical; TwrCriticalRecommendations]
    else if Rlt_dec twr 1.5 then
      analysis ++ [TwrWarning; TwrWarningRecommendations]
    else analysis ++ [TwrGood] in
  let analysis :=
    if Rlt_dec flight_time 5 then analysis ++ [FlightTimeVeryShort]
    else if Rlt_dec flight_time 15 then analysis ++ [FlightTimeModerate]
    else analysis ++ [FlightTimeGood] in
  let analysis :=
    if Rgt_dec power 500 then analysis ++ [HighPowerConsumption]
    else analysis in
  let analysis := analysis ++ [TotalSystemWeight weight] in
  loading <- truediv power weight ;;
  Ok (analysis ++ [PowerLoading loading]).

(** [[f(x) for x in xs]] where [f] may raise. *)
Fixpoint list_comprehension {A B : Type} (f : A -> result B) (xs : list A)
  : result (list B) :=
  match xs with
  | [] => Ok []
  | x :: xs' =>
    y <- f x ;;
    ys <- list_comprehension f xs' ;;
    Ok (y :: ys)
  end.

(** [np.linspace(start, stop, num)] for [num >= 2]: [num] evenly spaced
    samples from [start] to [stop], both included. *)
Definition linspace (start stop : R) (num : nat) : list R :=
  map (fun i => start + INR i * ((stop - start) / INR (num - 1)))
      (seq 0 num).

(** Plot 3 of [update_performance_graph]: the power the flight-time curve
    is drawn for. *)
Definition graph_current_power (self : DroneCalculatorGUI) : result R :=
  t <-
    calculate_propeller_thrust calculator (prop_diameter self)
      (prop_pitch self)
      (calculate_motor_rpm calculator (battery_voltage self) (motor_kv self)
         default_load_current)
      default_efficiency ;;
  calculate_power_consumption calculator (t * IZR (num_motors self))
    default_motor_efficiency.

(** Plot 4: the weight the thrust-to-weight curve is drawn for. *)
Definition graph_total_weight (self : DroneCalculatorGUI) : R :=
  motor_weight self * IZR (num_motors self) +
  battery_weight self + frame_weight self +
  flight_controller_weight self + camera_weight self +
  additional_payload self + wiring_weight self.

(** Plot 4: the body of [for diameter in diameters]; the diameters are
    samples between 6 and 15 inches. *)
Definition graph_twr (self : DroneCalculatorGUI) (diameter : R) : result R :=
  let total_weight := graph_total_weight self in
  let rpm :=
    calculate_motor_rpm calculator (battery_voltage self) (motor_kv self)
                        default_load_current in
  t <-
    calculate_propeller_thrust calculator diameter (prop_pitch self) rpm
                               default_efficiency ;;
  let thrust := t * IZR (num_motors self) in
  if Rgt_dec total_weight 0 then truediv thrust total_weight else Ok 0.

(** Plot 4: [twrs], one value per sampled diameter. *)
Definition graph_twrs (self : DroneCalculatorGUI) : result (list R) :=
  let diameters := linspace 6 15 50 in
  list_comprehension (graph_twr self) diameters.

(** ** Widget updates used to state properties *)

Definition set_additional_payload (g : DroneCalculatorGUI) (v : R)
  : DroneCalculatorGUI :=
  {| prop_diameter := prop_diameter g;
     prop_pitch := prop_pitch g;
     prop_efficiency := prop_efficiency g;
     motor_kv := motor_kv g;
     motor_efficiency := motor_efficiency g;
     motor_weight := motor_weight g;
     num_motors := num_motors g;
     battery_voltage := battery_voltage g;
     battery_capacity := battery_capacity g;
     battery_weight := battery_weight g;
     esc_weight := esc_weight g;
     frame_weight := frame_weight g;
     flight_controller_weight := flight_controller_weight g;
     camera_weight := camera_weight g;
     additional_payload := v;
     wiring_weight := wiring_weight g;
     opt_prop_diameter := opt_prop_diameter g;
     opt_motor_kv := opt_motor_kv g;
     opt_battery_capacity := opt_battery_capacity g;
     opt_num_motors := opt_num_motors g;
     max_weight := max_weight g;
     min_flight_time := min_flight_time g;
     max_cost := max_cost g |}.

(** The two constraints of the optimize tab set to [w] and [t]. *)
Definition set_constraints (g : DroneCalculatorGUI) (w t : R)
  : DroneCalculatorGUI :=
  {| prop_diameter := prop_diameter g;
     prop_pitch := prop_pitch g;
     prop_efficiency := prop_efficiency g;
     motor_kv := motor_kv g;
     motor_efficiency := motor_efficiency g;
     motor_weight := motor_weight g;
     num_motors := num_motors g;
     battery_voltage := battery_voltage g;
     battery_capacity := battery_capacity g;
     battery_weight := battery_weight g;
     esc_weight := esc_weight g;
     frame_weight := frame_weight g;
     flight_controller_weight := flight_controller_weight g;
     camera_weight := camera_weight g;
     additional_payload := additional_payload g;
     wiring_weight := wiring_weight g;
     opt_prop_diameter := opt_prop_diameter g;
     opt_motor_kv := opt_motor_kv g;
     opt_battery_capacity := opt_battery_capacity g;
     opt_num_motors := opt_num_motors g;
     max_weight := w;
     min_flight_time := t;
     max_cost := max_cost g |}.

(** The cost budget, the ESC weight and the two efficiency widgets set to
    [cost], [esc], [pe] and [me]. *)
Definition set_unread_widgets (g : DroneCalculatorGUI) (cost esc pe me : R)
  : DroneCalculatorGUI :=
  {| prop_diameter := prop_diameter g;
     prop_pitch := prop_pitch g;
     prop_efficiency := pe;
     motor_kv := motor_kv g;
     motor_efficiency := me;
     motor_weight := motor_weight g;
     num_motors := num_motors g;
     battery_voltage := battery_voltage g;
     battery_capacity := battery_capacity g;
     battery_weight := battery_weight g;
     esc_weight := esc;
     frame_weight := frame_weight g;
     flight_controller_weight := flight_controller_weight g;
     camera_weight := camera_weight g;
     additional_payload := additional_payload g;
     wiring_weight := wiring_weight g;
     opt_prop_diameter := opt_prop_diameter g;
     opt_motor_kv := opt_motor_kv g;
     opt_battery_capacity := opt_battery_capacity g;
     opt_num_motors := opt_num_motors g;
     max_weight := max_weight g;
     min_flight_time := min_flight_time g;
     max_cost := cost |}.


(** The default widget values with a maximum weight of 900 g and only the
    battery capacity selected. *)
Definition tight_gui : DroneCalculatorGUI :=
  set_constraints (select default_gui false false true false) 900 10.
(** * Properties *)

(** ** Python primitives *)

Lemma truediv_ok (x y : R) : y <> 0 -> truediv x y = Ok (x / y).
Proof.
  intros Hy. unfold truediv.
  destruct (Req_dec_T y 0); [contradiction | reflexivity].
Qed.

Lemma truediv_zero (x : R) : truediv x 0 = Raise ZeroDivisionError.
Proof.
  unfold truediv.
  destruct (Req_dec_T 0 0) as [_ | H]; [reflexivity | now destruct H].
Qed.

Lemma Rpower_three_halves (x : R) : 0 < x -> Rpower x 1.5 = x * sqrt x.
Proof.
  intros Hx.
  replace 1.5 with (1 + / 2) by lra.
  now rewrite Rpower_plus, Rpower_1, Rpower_sqrt.
Qed.

Lemma pow_1_5_nonneg (x : R) :
  0 <= x -> pow_1_5 x = Ok (Spec.pow_three_halves x).
Proof.
  intros Hx. unfold pow_1_5, Spec.pow_three_halves.
  destruct (Rgt_dec x 0) as [Hpos | Hnpos].
  - now rewrite Rpower_three_halves.
  - destruct (Req_dec_T x 0) as [-> | Hne].
    + now rewrite Rmult_0_l.
    + exfalso. lra.
Qed.

Lemma pow_three_halves_nonneg (x : R) : 0 <= x -> 0 <= Spec.pow_three_halves x.
Proof.
  intros Hx. unfold Spec.pow_three_halves.
  apply Rmult_le_pos; [assumption | apply sqrt_pos].
Qed.

Lemma pow_three_halves_0 : Spec.pow_three_halves 0 = 0.
Proof. unfold Spec.pow_three_halves. now rewrite Rmult_0_l. Qed.

(** ** DroneCalculator *)

Section Physics.

Variable self : DroneCalculator.

Lemma propeller_thrust_ok (diameter pitch rpm efficiency : R) :
  diameter <> 0 \/ rpm <= 0 ->
  exists t, calculate_propeller_thrust self diameter pitch rpm efficiency = Ok t
            /\ 0 <= t.
Proof.
  intros Hdom. unfold calculate_propeller_thrust.
  destruct (Rgt_dec rpm 0) as [Hrpm | Hrpm].
  - rewrite truediv_ok.
    + cbn [bind]. eexists. split; [reflexivity | apply Rmax_l].
    + destruct Hdom as [Hd | Hr]; [ | lra].
      intros Hz.
      assert (rpm * (diameter * 0.0254) = 0) as Hm by lra.
      apply Rmult_integral in Hm. destruct Hm as [Hm | Hm]; lra.
  - cbn [bind]. eexists. split; [reflexivity | apply Rmax_l].
Qed.

Lemma propeller_thrust_inv (diameter pitch rpm efficiency t : R) :
  calculate_propeller_thrust self diameter pitch rpm efficiency = Ok t ->
  0 <= t.
Proof.
  unfold calculate_propeller_thrust.
  destruct (Rgt_dec rpm 0).
  - destruct (truediv _ _); cbn [bind]; intros H; inversion H. apply Rmax_l.
  - cbn [bind]. intros H; inversion H. apply Rmax_l.
Qed.

Lemma propeller_thrust_rpm_nonpos (diameter pitch rpm efficiency : R) :
  rpm = 0 ->
  calculate_propeller_thrust self diameter pitch rpm efficiency = Ok 0.
Proof.
  intros ->. unfold calculate_propeller_thrust.
  destruct (Rgt_dec 0 0) as [H | _]; [lra | ].
  cbn [bind]. cbv zeta. f_equal.
  match goal with
  | |- Rmax 0 ?x = 0 => replace x with 0 by (unfold Rdiv; ring)
  end.
  apply Rmax_left. lra.
Qed.

Lemma propeller_thrust_zero_diameter (pitch rpm efficiency : R) :
  0 < rpm ->
  calculate_propeller_thrust self 0 pitch rpm efficiency
  = Raise ZeroDivisionError.
Proof.
  intros Hrpm. unfold calculate_propeller_thrust.
  destruct (Rgt_dec rpm 0) as [_ | H]; [ | lra].
  replace (rpm * (0 * 0.0254) / 60) with 0 by lra.
  now rewrite truediv_zero.
Qed.

Lemma power_consumption_ok (thrust_grams motor_efficiency : R) :
  0 <= thrust_grams -> motor_efficiency <> 0 ->
  calculate_power_consumption self thrust_grams motor_efficiency
  = Ok (Spec.powerConsumption thrust_grams motor_efficiency).
Proof.
  intros Ht He. unfold calculate_power_consumption, Spec.powerConsumption.
  rewrite pow_1_5_nonneg by lra. cbn [bind].
  rewrite truediv_ok by lra. reflexivity.
Qed.

Lemma power_consumption_zero_efficiency (thrust_grams : R) :
  0 <= thrust_grams ->
  calculate_power_consumption self thrust_grams 0
  = Raise ZeroDivisionError.
Proof.
  intros Ht. unfold calculate_power_consumption.
  rewrite pow_1_5_nonneg by lra. cbn [bind].
  replace (0 * 10) with 0 by lra. now rewrite truediv_zero.
Qed.

Lemma powerConsumption_0 (motor_efficiency : R) :
  Spec.powerConsumption 0 motor_efficiency = 0.
Proof.
  unfold Spec.powerConsumption.
  replace (0 / 101.97) with 0 by lra.
  rewrite pow_three_halves_0. lra.
Qed.

Lemma flight_time_no_power
      (battery_capacity_mah total_power_watts voltage : R) :
  total_power_watts <= 0 ->
  calculate_flight_time self battery_capacity_mah total_power_watts voltage
  = Ok 0.
Proof.
  intros Hp. unfold calculate_flight_time.
  destruct (Rle_dec total_power_watts 0); [reflexivity | contradiction].
Qed.

Lemma flight_time_powered
      (battery_capacity_mah total_power_watts voltage : R) :
  0 < total_power_watts -> voltage <> 0 ->
  calculate_flight_time self battery_capacity_mah total_power_watts voltage
  = Ok (Spec.flightTimeMinutes battery_capacity_mah total_power_watts voltage).
Proof.
  intros Hp Hv. unfold calculate_flight_time, Spec.flightTimeMinutes.
  destruct (Rle_dec total_power_watts 0) as [H | _]; [lra | ].
  rewrite truediv_ok by assumption. cbn [bind].
  rewrite truediv_ok; [reflexivity | ].
  unfold Rdiv. apply Rmult_integral_contrapositive_currified; [lra | ].
  now apply Rinv_neq_0_compat.
Qed.

Lemma motor_rpm_no_voltage (voltage kv : R) :
  voltage <= 0 -> calculate_motor_rpm self voltage kv 0 = 0.
Proof.
  intros Hv. unfold calculate_motor_rpm.
  rewrite Rmax_left by lra. ring.
Qed.

End Physics.

(** C6: [flightTimeMinutes] returns 0 whenever the power is not positive,
    whatever the capacity and the voltage (no division is attempted);
    for a positive power and a positive voltage it returns
    [((capacityMah / 1000) / (powerWatts / voltage)) * 60]. *)
Theorem flight_time_minutes_cases
        (self : DroneCalculator) (capacityMah powerWatts voltage : R) :
  (powerWatts <= 0 ->
   calculate_flight_time self capacityMah powerWatts voltage = Ok 0)
  /\
  (0 < powerWatts -> 0 < voltage ->
   calculate_flight_time self capacityMah powerWatts voltage
   = Ok (((capacityMah / 1000) / (powerWatts / voltage)) * 60)).
Proof.
  split.
  - apply flight_time_no_power.
  - intros Hp Hv.
    rewrite flight_time_powered by lra. reflexivity.
Qed.

Lemma flight_time_minutes_cases_witness :
  calculate_flight_time calculator 5000 0 11.1 = Ok 0
  /\ calculate_flight_time calculator 5000 200 11.1
     = Ok (((5000 / 1000) / (200 / 11.1)) * 60).
Proof.
  split.
  - apply (flight_time_minutes_cases calculator 5000 0 11.1). lra.
  - apply (flight_time_minutes_cases calculator 5000 200 11.1); lra.
Defined.

(** C7 (as amended): for every diameter > 0, pitch >= 0, rpm >= 0 and any
    efficiency the propeller thrust is returned and is >= 0; for rpm = 0
    it is exactly 0 for every diameter, pitch and efficiency. *)
Theorem propeller_thrust_nonneg
        (self : DroneCalculator) (diameter pitch rpm efficiency : R) :
  (0 < diameter -> 0 <= pitch -> 0 <= rpm ->
   exists t,
     calculate_propeller_thrust self diameter pitch rpm efficiency = Ok t
     /\ 0 <= t)
  /\ calculate_propeller_thrust self diameter pitch 0 efficiency = Ok 0.
Proof.
  split.
  - intros Hd _ _. apply propeller_thrust_ok. left. lra.
  - now apply propeller_thrust_rpm_nonpos.
Qed.

Lemma propeller_thrust_nonneg_witness :
  (exists t,
      calculate_propeller_thrust calculator 10 4.5 11100 0.8 = Ok t
      /\ 0 <= t)
  /\ calculate_propeller_thrust calculator 10 4.5 0 0.8 = Ok 0.
Proof.
  destruct (propeller_thrust_nonneg calculator 10 4.5 11100 0.8) as [H H0].
  split; [apply H; lra | exact H0].
Defined.

(** C7 as stated fails at diameter = 0 (within its diameter >= 0) with a
    positive rpm: the advance ratio divides by [rpm * diameter_m / 60],
    which is zero, and the call raises instead of returning a thrust. *)
Lemma propeller_thrust_zero_diameter_raises :
  0 <= 0 /\ 0 <= 4.5 /\ 0 <= 11100
  /\ calculate_propeller_thrust calculator 0 4.5 11100 0.8
     = Raise ZeroDivisionError
  /\ ~ (exists t,
           calculate_propeller_thrust calculator 0 4.5 11100 0.8 = Ok t
           /\ 0 <= t).
Proof.
  assert (calculate_propeller_thrust calculator 0 4.5 11100 0.8
          = Raise ZeroDivisionError) as E
      by (apply propeller_thrust_zero_diameter; lra).
  repeat split; try lra; try exact E.
  intros [t [Ht _]]. rewrite E in Ht. discriminate Ht.
Qed.

(** C8: [motorRpm] is [kv * max(0, voltage - loadCurrent * 0.1)]; with no
    load current and a voltage >= 0 it is exactly [kv * voltage]. *)
Theorem motor_rpm_formula
        (self : DroneCalculator) (voltage kv loadCurrent : R) :
  calculate_motor_rpm self voltage kv loadCurrent
  = kv * Rmax 0 (voltage - loadCurrent * 0.1)
  /\ (0 <= voltage -> calculate_motor_rpm self voltage kv 0 = kv * voltage).
Proof.
  split; [reflexivity | ].
  intros Hv. unfold calculate_motor_rpm.
  replace (voltage - 0 * 0.1) with voltage by ring.
  now rewrite Rmax_right.
Qed.

Lemma motor_rpm_formula_witness :
  calculate_motor_rpm calculator 11.1 1000 0 = 1000 * 11.1.
Proof.
  apply (motor_rpm_formula calculator 11.1 1000 0). lra.
Defined.

(** C9: for thrustGrams >= 0 and motorEfficiency > 0, [powerConsumption]
    is exactly [(thrustGrams / 101.97)^1.5 / (motorEfficiency * 10)],
    the thrust in newtons entering the power with no further unit
    correction.  The power [x^1.5] is [x * sqrt x]; for a positive thrust
    it is also [Rpower x 1.5]. *)
Theorem power_consumption_formula
        (self : DroneCalculator) (thrustGrams motorEfficiency : R) :
  0 <= thrustGrams -> 0 < motorEfficiency ->
  calculate_power_consumption self thrustGrams motorEfficiency
  = Ok (Spec.pow_three_halves (thrustGrams / 101.97) / (motorEfficiency * 10))
  /\ (0 < thrustGrams ->
      calculate_power_consumption self thrustGrams motorEfficiency
      = Ok (Rpower (thrustGrams / 101.97) 1.5 / (motorEfficiency * 10))).
Proof.
  intros Ht He.
  assert (calculate_power_consumption self thrustGrams motorEfficiency
          = Ok (Spec.pow_three_halves (thrustGrams / 101.97)
                / (motorEfficiency * 10))) as E.
  { rewrite power_consumption_ok by lra. reflexivity. }
  split; [exact E | ].
  intros Hpos. rewrite E. unfold Spec.pow_three_halves.
  rewrite Rpower_three_halves; [reflexivity | ].
  apply Rdiv_lt_0_compat; lra.
Qed.

Lemma power_consumption_formula_witness :
  calculate_power_consumption calculator 101.97 0.85
  = Ok (Spec.pow_three_halves (101.97 / 101.97) / (0.85 * 10)).
Proof.
  apply (power_consumption_formula calculator 101.97 0.85); lra.
Defined.

(** ** update_calculations *)

Section Evaluate.

Variable self : DroneCalculatorGUI.

Let n : R := IZR (num_motors self).
Let rpm : R :=
  calculate_motor_rpm calculator (battery_voltage self) (motor_kv self) 0.
Let weight : R :=
  motor_weight self * n + battery_weight self + esc_weight self * n
  + frame_weight self + flight_controller_weight self + camera_weight self
  + additional_payload self + wiring_weight self.

Lemma guarded_twr (thrust w : R) :
  (if Rgt_dec w 0 then truediv thrust w else Ok 0)
  = Ok (if Rgt_dec w 0 then thrust / w else 0).
Proof.
  destruct (Rgt_dec w 0) as [Hw | Hw]; [ | reflexivity].
  apply truediv_ok. lra.
Qed.

Lemma update_calculations_intro (t p ft : R) :
  calculate_propeller_thrust calculator (prop_diameter self)
    (prop_pitch self) rpm (prop_efficiency self / 100) = Ok t ->
  calculate_power_consumption calculator t (motor_efficiency self / 100)
  = Ok p ->
  calculate_flight_time calculator (battery_capacity self) (p * n)
    (battery_voltage self) = Ok ft ->
  update_calculations self
  = Ok {| r_total_weight := weight;
          r_total_thrust := t * n;
          r_twr := if Rgt_dec weight 0 then t * n / weight else 0;
          r_flight_time := ft;
          r_total_power := p * n;
          r_max_payload :=
            Rmax 0 (t * n / 2 - (weight - additional_payload self)) |}.
Proof.
  intros Ht Hp Hft. unfold update_calculations. cbv zeta.
  fold n. unfold default_load_current. fold rpm.
  rewrite Ht. cbn [bind]. fold weight.
  rewrite guarded_twr. cbn [bind].
  rewrite Hp. cbn [bind]. rewrite Hft. cbn [bind]. reflexivity.
Qed.

Lemma update_calculations_inv (r : PerformanceResult) :
  update_calculations self = Ok r ->
  exists t p ft,
    calculate_propeller_thrust calculator (prop_diameter self)
      (prop_pitch self) rpm (prop_efficiency self / 100) = Ok t
    /\ calculate_power_consumption calculator t
         (motor_efficiency self / 100) = Ok p
    /\ calculate_flight_time calculator (battery_capacity self) (p * n)
         (battery_voltage self) = Ok ft
    /\ r = {| r_total_weight := weight;
              r_total_thrust := t * n;
              r_twr := if Rgt_dec weight 0 then t * n / weight else 0;
              r_flight_time := ft;
              r_total_power := p * n;
              r_max_payload :=
                Rmax 0 (t * n / 2 - (weight - additional_payload self)) |}.
Proof.
  intros H.
  destruct (calculate_propeller_thrust calculator (prop_diameter self)
              (prop_pitch self) rpm (prop_efficiency self / 100))
    as [t | e] eqn:Ht.
  2:{ exfalso. revert H. unfold update_calculations. cbv zeta.
      unfold default_load_current. fold rpm. rewrite Ht. discriminate. }
  destruct (calculate_power_consumption calculator t
              (motor_efficiency self / 100)) as [p | e] eqn:Hp.
  2:{ exfalso. revert H. unfold update_calculations. cbv zeta.
      fold n. unfold default_load_current. fold rpm. rewrite Ht.
      cbn [bind]. rewrite guarded_twr. cbn [bind]. rewrite Hp.
      discriminate. }
  destruct (calculate_flight_time calculator (battery_capacity self)
              (p * n) (battery_voltage self)) as [ft | e] eqn:Hft.
  2:{ exfalso. revert H. unfold update_calculations. cbv zeta.
      fold n. unfold default_load_current. fold rpm. rewrite Ht.
      cbn [bind]. rewrite guarded_twr. cbn [bind]. rewrite Hp.
      cbn [bind]. rewrite Hft. discriminate. }
  exists t, p, ft.
  rewrite (update_calculations_intro t p ft Ht Hp Hft) in H.
  inversion H. repeat split; assumption.
Qed.

(** Outside a zero propeller diameter and a zero motor efficiency no
    step of the evaluation raises. *)
Lemma update_calculations_total :
  prop_diameter self <> 0 \/ rpm <= 0 ->
  motor_efficiency self <> 0 ->
  exists t ft,
    calculate_propeller_thrust calculator (prop_diameter self)
      (prop_pitch self) rpm (prop_efficiency self / 100) = Ok t
    /\ 0 <= t
    /\ calculate_flight_time calculator (battery_capacity self)
         (Spec.powerConsumption t (motor_efficiency self / 100) * n)
         (battery_voltage self) = Ok ft
    /\ update_calculations self
       = Ok {| r_total_weight := weight;
               r_total_thrust := t * n;
               r_twr := if Rgt_dec weight 0 then t * n / weight else 0;
               r_flight_time := ft;
               r_total_power :=
                 Spec.powerConsumption t (motor_efficiency self / 100) * n;
               r_max_payload :=
                 Rmax 0 (t * n / 2 - (weight - additional_payload self)) |}.
Proof.
  intros Hd He.
  destruct (propeller_thrust_ok calculator (prop_diameter self)
              (prop_pitch self) rpm (prop_efficiency self / 100) Hd)
    as [t [Ht Hpos]].
  assert (calculate_power_consumption calculator t
            (motor_efficiency self / 100)
          = Ok (Spec.powerConsumption t (motor_efficiency self / 100)))
    as Hp by (apply power_consumption_ok; lra).
  set (p := Spec.powerConsumption t (motor_efficiency self / 100)) in *.
  assert (exists ft,
             calculate_flight_time calculator (battery_capacity self)
               (p * n) (battery_voltage self) = Ok ft) as [ft Hft].
  { destruct (Rle_dec (p * n) 0) as [Hle | Hgt].
    - exists 0. now apply flight_time_no_power.
    - destruct (Req_dec_T (battery_voltage self) 0) as [Hv | Hv].
      + exfalso. apply Hgt.
        assert (rpm = 0) as Hr
            by (unfold rpm; apply motor_rpm_no_voltage; lra).
        rewrite Hr in Ht.
        rewrite propeller_thrust_rpm_nonpos in Ht by reflexivity.
        inversion Ht; subst t. unfold p.
        rewrite powerConsumption_0. lra.
      + eexists. apply flight_time_powered; [lra | assumption]. }
  exists t, ft. repeat split; try assumption.
  now apply update_calculations_intro.
Qed.

End Evaluate.

(** C5 (as amended): [update_calculations] computes the total weight as
    the five fixed weights plus [motor_weight * count + esc_weight * count]
    plus the battery weight; on the regression scenario that is exactly
    980 g. *)
Theorem total_weight_formula (self : DroneCalculatorGUI) :
  (forall r,
      update_calculations self = Ok r ->
      r_total_weight r
      = Spec.totalWeight (frame_weight self) (flight_controller_weight self)
          (camera_weight self) (additional_payload self) (wiring_weight self)
          (motor_weight self) (esc_weight self) (battery_weight self)
          (num_motors self))
  /\ (exists r,
         update_calculations default_gui = Ok r /\ r_total_weight r = 980).
Proof.
  split.
  - intros r Hr.
    destruct (update_calculations_inv self r Hr)
      as (t & p & ft & _ & _ & _ & ->).
    cbn [r_total_weight]. unfold Spec.totalWeight. ring.
  - destruct (update_calculations_total default_gui)
      as (t & ft & _ & _ & _ & E).
    + left. cbv [prop_diameter default_gui]. lra.
    + cbv [motor_efficiency default_gui]. lra.
    + eexists. split; [exact E | ].
      cbv [r_total_weight default_gui motor_weight num_motors battery_weight
           esc_weight frame_weight flight_controller_weight camera_weight
           additional_payload wiring_weight].
      lra.
Qed.

Lemma total_weight_formula_witness :
  exists r,
    update_calculations default_gui = Ok r
    /\ r_total_weight r = Spec.totalWeight 200 30 100 0 50 50 25 300 4.
Proof.
  destruct (total_weight_formula default_gui) as [Hall [r [Hr _]]].
  exists r. split; [exact Hr | exact (Hall r Hr)].
Defined.

(** C5 as stated fails on its regression scenario: the formula gives
    50*4 + 300 + 25*4 + 200 + 30 + 100 + 0 + 50 = 980 g, not 880 g. *)
Lemma regression_weight_is_not_880 :
  exists r,
    update_calculations default_gui = Ok r
    /\ r_total_weight r
       = Spec.totalWeight 200 30 100 0 50 50 25 300 4
    /\ r_total_weight r <> 880.
Proof.
  destruct (update_calculations_total default_gui)
    as (t & ft & _ & _ & _ & E).
  - left. cbv [prop_diameter default_gui]. lra.
  - cbv [motor_efficiency default_gui]. lra.
  - eexists. split; [exact E | ].
    cbv [r_total_weight default_gui motor_weight num_motors battery_weight
         esc_weight frame_weight flight_controller_weight camera_weight
         additional_payload wiring_weight Spec.totalWeight].
    split; lra.
Qed.

(** C10 (as amended): where the evaluation raises nowhere else, i.e. for a
    nonzero motor efficiency and a nonzero propeller diameter (or a voltage
    that is not positive), the thrust-to-weight ratio is
    [total_thrust / total_weight] when the total weight is positive and 0
    otherwise, and a configuration with zero motors or zero voltage gives
    total thrust 0, TWR 0, total power 0 and flight time 0. *)
Theorem twr_guard_and_degenerate_cases (self : DroneCalculatorGUI) :
  prop_diameter self <> 0 \/ battery_voltage self <= 0 ->
  motor_efficiency self <> 0 ->
  exists r,
    update_calculations self = Ok r
    /\ (r_total_weight r > 0 ->
        r_twr r = r_total_thrust r / r_total_weight r)
    /\ (r_total_weight r <= 0 -> r_twr r = 0)
    /\ (num_motors self = 0%Z \/ battery_voltage self = 0 ->
        r_total_thrust r = 0 /\ r_twr r = 0
        /\ r_total_power r = 0 /\ r_flight_time r = 0).
Proof.
  intros Hd He.
  destruct (update_calculations_total self) as (t & ft & Ht & Hpos & Hft & E).
  { destruct Hd as [Hd | Hv]; [now left | right].
    rewrite motor_rpm_no_voltage by assumption. lra. }
  { assumption. }
  eexists. split; [exact E | ].
  cbn [r_total_weight r_twr r_total_thrust r_total_power r_flight_time].
  match goal with
  | |- context [Rgt_dec ?w 0] => set (weight := w)
  end.
  split; [ | split].
  - intros Hw. destruct (Rgt_dec weight 0); [reflexivity | lra].
  - intros Hw. destruct (Rgt_dec weight 0); [lra | reflexivity].
  - intros Hdeg.
    assert (t * IZR (num_motors self) = 0
            /\ Spec.powerConsumption t (motor_efficiency self / 100)
               * IZR (num_motors self) = 0) as [Hthrust Hpower].
    { destruct Hdeg as [Hn | Hv].
      - rewrite Hn. split; ring.
      - rewrite motor_rpm_no_voltage in Ht by lra.
        rewrite propeller_thrust_rpm_nonpos in Ht by reflexivity.
        inversion Ht; subst t. rewrite powerConsumption_0. split; ring. }
    rewrite Hpower in Hft |- *. rewrite Hthrust.
    rewrite flight_time_no_power in Hft by lra. inversion Hft.
    repeat split; try reflexivity.
    destruct (Rgt_dec weight 0); [ | reflexivity].
    unfold Rdiv. ring.
Qed.

Lemma twr_guard_and_degenerate_cases_witness :
  exists r,
    update_calculations (set_num_motors default_gui 0) = Ok r
    /\ r_total_thrust r = 0 /\ r_twr r = 0
    /\ r_total_power r = 0 /\ r_flight_time r = 0.
Proof.
  destruct (twr_guard_and_degenerate_cases (set_num_motors default_gui 0))
    as (r & Hr & _ & _ & Hz).
  - left. cbv [prop_diameter set_num_motors default_gui]. lra.
  - cbv [motor_efficiency set_num_motors default_gui]. lra.
  - exists r. split; [exact Hr | ]. apply Hz. left. reflexivity.
Defined.

(** C10 as stated fails for a configuration with zero voltage whose motor
    efficiency is 0: the power step divides by [motor_efficiency * 10] and
    raises, so no total power or flight time is produced. *)
Lemma zero_voltage_zero_efficiency_raises :
  battery_voltage dead_battery_gui = 0
  /\ update_calculations dead_battery_gui = Raise ZeroDivisionError.
Proof.
  split; [reflexivity | ].
  unfold update_calculations. cbv zeta.
  cbv [dead_battery_gui prop_diameter prop_pitch motor_kv battery_voltage
       num_motors prop_efficiency motor_efficiency].
  unfold default_load_current.
  rewrite motor_rpm_no_voltage by lra.
  rewrite propeller_thrust_rpm_nonpos by reflexivity. cbn [bind].
  rewrite guarded_twr. cbn [bind].
  replace (0 / 100) with 0 by lra.
  rewrite power_consumption_zero_efficiency by lra. reflexivity.
Qed.

(** ** run_optimization *)

Section Loops.

Context {A B S : Type}.

Lemma for_in_app (xs ys : list A) (body : A -> S -> result S) (s : S) :
  for_in (xs ++ ys) body s = bind (for_in xs body s) (for_in ys body).
Proof.
  revert s. induction xs as [ | x xs IH]; intros s; cbn [for_in app bind].
  - reflexivity.
  - destruct (body x s) as [s' | e]; cbn [bind]; [apply IH | reflexivity].
Qed.

Lemma for_in_map (f : B -> A) (xs : list B) (body : A -> S -> result S)
      (s : S) :
  for_in (map f xs) body s = for_in xs (fun x => body (f x)) s.
Proof.
  revert s. induction xs as [ | x xs IH]; intros s; cbn [for_in map].
  - reflexivity.
  - destruct (body (f x) s) as [s' | e]; cbn [bind]; [apply IH | reflexivity].
Qed.

Lemma for_in_flat_map (f : B -> list A) (xs : list B)
      (body : A -> S -> result S) (s : S) :
  for_in (flat_map f xs) body s = for_in xs (fun x => for_in (f x) body) s.
Proof.
  revert s. induction xs as [ | x xs IH]; intros s; cbn [for_in flat_map].
  - reflexivity.
  - rewrite for_in_app.
    destruct (for_in (f x) body s) as [s' | e]; cbn [bind];
      [apply IH | reflexivity].
Qed.

Lemma for_in_ext (xs : list A) (body body' : A -> S -> result S) (s : S) :
  (forall x s0, body x s0 = body' x s0) ->
  for_in xs body s = for_in xs body' s.
Proof.
  intros Hext. revert s.
  induction xs as [ | x xs IH]; intros s; cbn [for_in]; [reflexivity | ].
  rewrite Hext. destruct (body' x s); cbn [bind]; [apply IH | reflexivity].
Qed.

End Loops.

Section Search.

Variable self : DroneCalculatorGUI.

(** The four nested loops visit [grid self] from left to right. *)
Lemma nested_loops_grid (st : SearchState) :
  for_in (prop_diameters self) (fun prop_d =>
    for_in (motor_kvs self) (fun motor_kv =>
      for_in (battery_caps self) (fun battery_cap =>
        for_in (motor_counts self) (fun motor_count =>
          loop_body self prop_d motor_kv battery_cap motor_count)))) st
  = for_in (grid self) (visit self) st.
Proof.
  unfold grid. rewrite for_in_flat_map.
  apply for_in_ext; intros prop_d s1. rewrite for_in_flat_map.
  apply for_in_ext; intros kv s2. rewrite for_in_flat_map.
  apply for_in_ext; intros cap s3. rewrite for_in_map.
  reflexivity.
Qed.

Lemma visit_metrics (c : Candidate) (st : SearchState) :
  visit self c st
  = (m <- metrics_of self c ;;
     Ok (let '(d, kv, cap, k) := c in consider self d kv cap k m st)).
Proof. destruct c as [[[d kv] cap] k]. reflexivity. Qed.

(** The two ways one combination can leave the loop body. *)
Lemma consider_cases (d kv cap : R) (k : Z) (m : Metrics)
      (st : SearchState) :
  (consider self d kv cap k m st = st
   /\ (admissible self m -> score_of m <= fst st))
  \/ (consider self d kv cap k m st
      = (score_of m, Some (config_of (d, kv, cap, k) m))
      /\ admissible self m /\ fst st < score_of m).
Proof.
  unfold consider, admissible. cbv zeta.
  destruct (Rgt_dec (m_total_weight m) (max_weight self)) as [Hw | Hw].
  { left. split; [reflexivity | ]. intros [H _]. lra. }
  destruct (Rlt_dec (m_flight_time m) (min_flight_time self)) as [Hf | Hf].
  { left. split; [reflexivity | ]. intros [_ [H _]]. lra. }
  destruct (Rgt_dec (score_of m) (fst st)) as [Hs | Hs].
  - destruct (Rge_dec (m_twr m) 1) as [Ht | Ht].
    + right. split; [reflexivity | ]. repeat split; lra.
    + left. split; [reflexivity | ]. intros [_ [_ H]]. contradiction.
  - left. split; [reflexivity | ]. intros _. lra.
Qed.

Lemma search_inv_init : search_inv self [] (0, None).
Proof.
  cbn. split; [reflexivity | ]. intros c m [].
Qed.

Lemma search_inv_best_nonneg (visited : list Candidate) (st : SearchState) :
  search_inv self visited st -> 0 <= fst st.
Proof.
  unfold search_inv. destruct (snd st) as [b | ].
  - intros (l1 & c & l2 & m & _ & _ & _ & _ & E & Hpos & _). lra.
  - intros [E _]. lra.
Qed.

Lemma search_inv_step (visited : list Candidate) (st : SearchState)
      (d kv cap : R) (k : Z) (m : Metrics) :
  search_inv self visited st ->
  metrics_of self (d, kv, cap, k) = Ok m ->
  search_inv self (visited ++ [(d, kv, cap, k)])
             (consider self d kv cap k m st).
Proof.
  intros Hinv Hm.
  pose proof (search_inv_best_nonneg _ _ Hinv) as Hnn.
  destruct (consider_cases d kv cap k m st) as [[-> Hle] | [-> [Hadm Hgt]]].
  - (* the best configuration is kept *)
    revert Hinv. unfold search_inv. destruct (snd st) as [b | ].
    + intros (l1 & c & l2 & m0 & -> & Hm0 & Hadm0 & -> & E & Hpos & Hl1 & Hl2).
      exists l1, c, (l2 ++ [(d, kv, cap, k)]), m0.
      rewrite <- app_assoc. cbn [app].
      repeat split; try assumption; try apply Hadm0.
      intros c' m' Hin Hm' Hadm'.
      apply in_app_or in Hin. destruct Hin as [Hin | [<- | []]].
      * now apply (Hl2 c' m').
      * rewrite Hm in Hm'. inversion Hm'; subst m'.
        rewrite <- E. now apply Hle.
    + intros [E Hall]. split; [assumption | ].
      intros c' m' Hin Hm' Hadm'.
      apply in_app_or in Hin. destruct Hin as [Hin | [<- | []]].
      * now apply (Hall c' m').
      * rewrite Hm in Hm'. inversion Hm'; subst m'.
        rewrite <- E. now apply Hle.
  - (* a new best configuration *)
    unfold search_inv. cbn [snd fst].
    exists visited, (d, kv, cap, k), [], m.
    repeat split; try assumption; try apply Hadm; try lra.
    + intros c' m' Hin Hm' Hadm'.
      revert Hinv. unfold search_inv. destruct (snd st) as [b | ].
      * intros (l1 & c & l2 & m0 & -> & Hm0 & Hadm0 & _ & E & Hpos & Hl1 & Hl2).
        apply in_app_or in Hin. destruct Hin as [Hin | [<- | Hin]].
        -- specialize (Hl1 c' m' Hin Hm' Hadm'). lra.
        -- rewrite Hm0 in Hm'. inversion Hm'; subst m'. lra.
        -- specialize (Hl2 c' m' Hin Hm' Hadm'). lra.
      * intros [E Hall]. specialize (Hall c' m' Hin Hm' Hadm'). lra.
    + intros c' m' [].
Qed.

Lemma search_inv_for_in (l visited : list Candidate) (st st' : SearchState) :
  search_inv self visited st ->
  for_in l (visit self) st = Ok st' ->
  search_inv self (visited ++ l) st'
  /\ forall c, In c l -> exists m, metrics_of self c = Ok m.
Proof.
  revert visited st.
  induction l as [ | c l IH]; intros visited st Hinv Hrun.
  - cbn [for_in] in Hrun. inversion Hrun; subst st'.
    rewrite app_nil_r. split; [assumption | intros c []].
  - cbn [for_in] in Hrun. rewrite visit_metrics in Hrun.
    destruct (metrics_of self c) as [m | e] eqn:Hm; [ | discriminate Hrun].
    cbn [bind] in Hrun.
    destruct c as [[[d kv] cap] k].
    destruct (IH (visited ++ [(d, kv, cap, k)]) _
                 (search_inv_step _ _ _ _ _ _ _ Hinv Hm) Hrun)
      as [Hinv' Hall].
    rewrite <- app_assoc in Hinv'. cbn [app] in Hinv'.
    split; [assumption | ].
    intros c' [<- | Hin]; [now exists m | now apply Hall].
Qed.

Lemma for_in_visit_total (l : list Candidate) (st : SearchState) :
  (forall c, In c l -> exists m, metrics_of self c = Ok m) ->
  exists st', for_in l (visit self) st = Ok st'.
Proof.
  revert st. induction l as [ | c l IH]; intros st Hall.
  - now exists st.
  - cbn [for_in]. rewrite visit_metrics.
    destruct (Hall c (or_introl eq_refl)) as [m ->]. cbn [bind].
    apply IH. intros c' Hin. apply Hall. now right.
Qed.

(** What [run_optimization] returns once a parameter is selected. *)
Lemma run_optimization_selected :
  optimize_params self <> [] ->
  run_optimization self
  = (st <- for_in (grid self) (visit self) (0, None) ;;
     match snd st with
     | Some best_config => Ok (Found best_config)
     | None => Ok NoValidConfiguration
     end).
Proof.
  intros Hsel. unfold run_optimization.
  destruct (optimize_params self) as [ | p ps]; [now destruct Hsel | ].
  now rewrite nested_loops_grid.
Qed.

Lemma run_optimization_inv (out : Outcome) :
  run_optimization self = Ok out ->
  out = NoParametersSelected /\ optimize_params self = []
  \/ optimize_params self <> []
     /\ exists st,
         for_in (grid self) (visit self) (0, None) = Ok st
         /\ search_inv self (grid self) st
         /\ (forall c, In c (grid self) ->
                       exists m, metrics_of self c = Ok m)
         /\ out = match snd st with
                  | Some best_config => Found best_config
                  | None => NoValidConfiguration
                  end.
Proof.
  intros Hrun.
  destruct (optimize_params self) as [ | p ps] eqn:Hsel.
  - left. unfold run_optimization in Hrun. rewrite Hsel in Hrun.
    inversion Hrun. now split.
  - right. split; [discriminate | ].
    rewrite run_optimization_selected in Hrun by (rewrite Hsel; discriminate).
    destruct (for_in (grid self) (visit self) (0, None)) as [st | e] eqn:Hfor;
      [ | discriminate Hrun].
    cbn [bind] in Hrun.
    destruct (search_inv_for_in _ [] _ _ search_inv_init Hfor) as [Hinv Hall].
    cbn [app] in Hinv.
    exists st. repeat split; try assumption.
    destruct (snd st); now inversion Hrun.
Qed.

End Search.

Section CandidateMetrics.

Variable self : DroneCalculatorGUI.
Variables prop_d kv battery_cap : R.
Variable motor_count : Z.

Let n : R := IZR motor_count.
Let rpm : R := calculate_motor_rpm calculator (battery_voltage self) kv 0.
Let weight : R :=
  motor_weight self * n + battery_weight self + frame_weight self
  + flight_controller_weight self + camera_weight self
  + additional_payload self + wiring_weight self.

Lemma candidate_metrics_intro (t p ft : R) :
  calculate_propeller_thrust calculator prop_d (prop_pitch self) rpm 0.8
  = Ok t ->
  calculate_power_consumption calculator t 0.85 = Ok p ->
  calculate_flight_time calculator battery_cap (p * n)
    (battery_voltage self) = Ok ft ->
  candidate_metrics self prop_d kv battery_cap motor_count
  = Ok {| m_total_thrust := t * n;
          m_total_weight := weight;
          m_twr := if Rgt_dec weight 0 then t * n / weight else 0;
          m_power := p * n;
          m_flight_time := ft |}.
Proof.
  intros Ht Hp Hft. unfold candidate_metrics. cbv zeta.
  unfold default_load_current, default_efficiency, default_motor_efficiency.
  fold n. fold rpm. rewrite Ht. cbn [bind]. fold weight.
  rewrite guarded_twr. cbn [bind].
  rewrite Hp. cbn [bind]. rewrite Hft. reflexivity.
Qed.

(** No combination with a nonzero diameter makes the loop body raise. *)
Lemma candidate_metrics_total :
  prop_d <> 0 \/ rpm <= 0 ->
  exists t ft,
    calculate_propeller_thrust calculator prop_d (prop_pitch self) rpm 0.8
    = Ok t
    /\ 0 <= t
    /\ calculate_flight_time calculator battery_cap
         (Spec.powerConsumption t 0.85 * n) (battery_voltage self) = Ok ft
    /\ candidate_metrics self prop_d kv battery_cap motor_count
       = Ok {| m_total_thrust := t * n;
               m_total_weight := weight;
               m_twr := if Rgt_dec weight 0 then t * n / weight else 0;
               m_power := Spec.powerConsumption t 0.85 * n;
               m_flight_time := ft |}.
Proof.
  intros Hd.
  destruct (propeller_thrust_ok calculator prop_d (prop_pitch self) rpm
              0.8 Hd) as [t [Ht Hpos]].
  assert (calculate_power_consumption calculator t 0.85
          = Ok (Spec.powerConsumption t 0.85)) as Hp
      by (apply power_consumption_ok; lra).
  set (p := Spec.powerConsumption t 0.85) in *.
  assert (exists ft,
             calculate_flight_time calculator battery_cap (p * n)
               (battery_voltage self) = Ok ft) as [ft Hft].
  { destruct (Rle_dec (p * n) 0) as [Hle | Hgt].
    - exists 0. now apply flight_time_no_power.
    - destruct (Req_dec_T (battery_voltage self) 0) as [Hv | Hv].
      + exfalso. apply Hgt.
        assert (rpm = 0) as Hr
            by (unfold rpm; apply motor_rpm_no_voltage; lra).
        rewrite Hr in Ht.
        rewrite propeller_thrust_rpm_nonpos in Ht by reflexivity.
        inversion Ht; subst t. unfold p.
        rewrite powerConsumption_0. lra.
      + eexists. apply flight_time_powered; [lra | assumption]. }
  exists t, ft. repeat split; try assumption.
  now apply candidate_metrics_intro.
Qed.

Lemma candidate_metrics_weight (m : Metrics) :
  candidate_metrics self prop_d kv battery_cap motor_count = Ok m ->
  m_total_weight m = weight.
Proof.
  unfold candidate_metrics. cbv zeta. fold n. fold weight.
  destruct (calculate_propeller_thrust _ _ _ _ _); [ | discriminate].
  cbn [bind]. rewrite guarded_twr. cbn [bind].
  destruct (calculate_power_consumption _ _ _); [ | discriminate].
  cbn [bind].
  destruct (calculate_flight_time _ _ _ _); [ | discriminate].
  cbn [bind]. intros H. now inversion H.
Qed.

Lemma candidate_metrics_inv (m : Metrics) :
  candidate_metrics self prop_d kv battery_cap motor_count = Ok m ->
  exists t p ft,
    calculate_propeller_thrust calculator prop_d (prop_pitch self) rpm 0.8
    = Ok t
    /\ calculate_power_consumption calculator t 0.85 = Ok p
    /\ calculate_flight_time calculator battery_cap (p * n)
         (battery_voltage self) = Ok ft
    /\ m = {| m_total_thrust := t * n;
              m_total_weight := weight;
              m_twr := if Rgt_dec weight 0 then t * n / weight else 0;
              m_power := p * n;
              m_flight_time := ft |}.
Proof.
  intros H.
  assert (candidate_metrics self prop_d kv battery_cap motor_count
          = (t <- calculate_propeller_thrust calculator prop_d
                    (prop_pitch self) rpm 0.8 ;;
             p <- calculate_power_consumption calculator t 0.85 ;;
             ft <- calculate_flight_time calculator battery_cap (p * n)
                     (battery_voltage self) ;;
             Ok {| m_total_thrust := t * n;
                   m_total_weight := weight;
                   m_twr := if Rgt_dec weight 0 then t * n / weight else 0;
                   m_power := p * n;
                   m_flight_time := ft |})) as E.
  { unfold candidate_metrics. cbv zeta.
    unfold default_load_current, default_efficiency,
      default_motor_efficiency.
    fold n. fold rpm. fold weight.
    destruct (calculate_propeller_thrust _ _ _ _ _); [ | reflexivity].
    cbn [bind]. rewrite guarded_twr. reflexivity. }
  rewrite E in H. clear E.
  destruct (calculate_propeller_thrust calculator prop_d (prop_pitch self)
              rpm 0.8) as [t | e] eqn:Ht; [ | discriminate H].
  cbn [bind] in H.
  destruct (calculate_power_consumption calculator t 0.85)
    as [p | e] eqn:Hp; [ | discriminate H].
  cbn [bind] in H.
  destruct (calculate_flight_time calculator battery_cap (p * n)
              (battery_voltage self)) as [ft | e] eqn:Hft;
    [ | discriminate H].
  cbn [bind] in H. injection H as <-.
  exists t, p, ft. repeat split; try reflexivity; assumption.
Qed.

End CandidateMetrics.

Lemma metrics_of_total (self : DroneCalculatorGUI) (c : Candidate) :
  In c (grid self) ->
  ~ In 0 (prop_diameters self) ->
  exists m, metrics_of self c = Ok m.
Proof.
  intros Hin Hnz.
  destruct c as [[[d kv] cap] k].
  assert (In d (prop_diameters self)) as Hd.
  { unfold grid in Hin. apply in_flat_map in Hin.
    destruct Hin as (d' & Hd' & Hin). apply in_flat_map in Hin.
    destruct Hin as (kv' & _ & Hin). apply in_flat_map in Hin.
    destruct Hin as (cap' & _ & Hin). apply in_map_iff in Hin.
    destruct Hin as (k' & E & _). inversion E. now subst. }
  destruct (candidate_metrics_total self d kv cap k)
    as (t & ft & _ & _ & _ & E).
  - left. intros ->. contradiction.
  - eexists. exact E.
Qed.

Section Outcomes.

Variable self : DroneCalculatorGUI.

Hypothesis selected : optimize_params self <> [].
Hypothesis diameters_nonzero : ~ In 0 (prop_diameters self).

Lemma run_optimization_total :
  exists st,
    for_in (grid self) (visit self) (0, None) = Ok st
    /\ search_inv self (grid self) st
    /\ run_optimization self
       = Ok match snd st with
            | Some best_config => Found best_config
            | None => NoValidConfiguration
            end.
Proof.
  destruct (for_in_visit_total self (grid self) (0, None)) as [st Hst].
  { intros c Hin. now apply metrics_of_total. }
  exists st. split; [assumption | ].
  destruct (search_inv_for_in self _ [] _ _ (search_inv_init self) Hst)
    as [Hinv _].
  split; [exact Hinv | ].
  rewrite run_optimization_selected by assumption.
  rewrite Hst. cbn [bind]. now destruct (snd st).
Qed.

(** A best configuration is reported exactly when some combination meets
    the constraints and the thrust-to-weight bar with a positive score. *)
Lemma found_iff_positive_admissible :
  (exists best, run_optimization self = Ok (Found best))
  <-> (exists c m,
          In c (grid self) /\ metrics_of self c = Ok m
          /\ admissible self m /\ 0 < score_of m).
Proof.
  destruct run_optimization_total as (st & _ & Hinv & ->).
  unfold search_inv in Hinv. destruct (snd st) as [b | ].
  - destruct Hinv as (l1 & c & l2 & m & Hg & Hm & Hadm & _ & _ & Hpos & _).
    split; [ | intros _; now exists b].
    intros _. exists c, m. repeat split; try assumption; try apply Hadm.
    rewrite Hg. apply in_or_app. right. now left.
  - destruct Hinv as [_ Hall]. split.
    + intros [b Hb]. discriminate Hb.
    + intros (c & m & Hin & Hm & Hadm & Hpos).
      specialize (Hall c m Hin Hm Hadm). lra.
Qed.

Lemma no_valid_configuration_iff :
  run_optimization self = Ok NoValidConfiguration
  <-> (forall c m,
          In c (grid self) -> metrics_of self c = Ok m ->
          admissible self m -> score_of m <= 0).
Proof.
  destruct run_optimization_total as (st & _ & Hinv & ->).
  unfold search_inv in Hinv. destruct (snd st) as [b | ].
  - destruct Hinv as (l1 & c & l2 & m & Hg & Hm & Hadm & _ & _ & Hpos & _).
    split; [discriminate | ].
    intros Hall. exfalso.
    assert (In c (grid self)) as Hin
        by (rewrite Hg; apply in_or_app; right; now left).
    specialize (Hall c m Hin Hm Hadm). lra.
  - destruct Hinv as [_ Hall]. split; [intros _; exact Hall | reflexivity].
Qed.

End Outcomes.

(** On the numbers the loop computes and stores: a reported best
    configuration is one of the combinations of the grid, it satisfies
    both constraints and has TWR >= 1, its score is
    [twr*30 + flight_time*2 - total_weight*0.01 - power*0.1], no
    combination meeting the constraints and the TWR bar scores higher, and
    every such combination visited before it scores strictly lower (the
    first of equal scores is the one kept).  The metrics are those the
    loop computes for each combination. *)
Theorem found_is_first_maximum (self : DroneCalculatorGUI) (best : BestConfig) :
  run_optimization self = Ok (Found best) ->
  exists l1 c l2 m,
    grid self = l1 ++ c :: l2
    /\ metrics_of self c = Ok m
    /\ best = config_of c m
    /\ cfg_total_weight best <= max_weight self
    /\ cfg_flight_time best >= min_flight_time self
    /\ cfg_twr best >= 1
    /\ cfg_score best
       = cfg_twr best * 30 + cfg_flight_time best * 2
         - cfg_total_weight best * 0.01 - cfg_power best * 0.1
    /\ (forall c', In c' (grid self) -> exists m', metrics_of self c' = Ok m')
    /\ (forall c' m',
           In c' (grid self) -> metrics_of self c' = Ok m' ->
           admissible self m' -> score_of m' <= cfg_score best)
    /\ (forall c' m',
           In c' l1 -> metrics_of self c' = Ok m' ->
           admissible self m' -> score_of m' < cfg_score best).
Proof.
  intros Hrun.
  destruct (run_optimization_inv self _ Hrun)
    as [[Habs _] | (_ & st & _ & Hinv & Hall & Hout)]; [discriminate Habs | ].
  unfold search_inv in Hinv.
  destruct (snd st) as [b | ]; [ | discriminate Hout].
  inversion Hout; subst b.
  destruct Hinv as (l1 & c & l2 & m & Hg & Hm & Hadm & -> & _ & _ & Hl1 & Hl2).
  exists l1, c, l2, m.
  destruct c as [[[d kv] cap] k]. cbn [config_of cfg_total_weight
    cfg_flight_time cfg_twr cfg_score cfg_power].
  destruct Hadm as (Hw & Hf & Ht).
  repeat split; try assumption.
  intros c' m' Hin Hm' Hadm'. rewrite Hg in Hin.
  apply in_app_or in Hin. destruct Hin as [Hin | [<- | Hin]].
  - left. now apply (Hl1 c' m').
  - rewrite Hm in Hm'. inversion Hm'. right. reflexivity.
  - now apply (Hl2 c' m').
Qed.

(** C4 (as amended): when no parameter is selected for optimization the
    method performs no search at all: it reports that no parameter was
    selected, with no configuration and no score, whatever the template
    and the constraints are. *)
Theorem nothing_selected_no_search (self : DroneCalculatorGUI) :
  opt_prop_diameter self = false ->
  opt_motor_kv self = false ->
  opt_battery_capacity self = false ->
  opt_num_motors self = false ->
  grid self
  = [(prop_diameter self, motor_kv self, battery_capacity self,
      num_motors self)]
  /\ run_optimization self = Ok NoParametersSelected.
Proof.
  intros H1 H2 H3 H4.
  unfold run_optimization, grid, prop_diameters, motor_kvs, battery_caps,
    motor_counts, optimize_params.
  rewrite H1, H2, H3, H4. cbn. split; reflexivity.
Qed.

Lemma nothing_selected_no_search_witness :
  run_optimization default_gui = Ok NoParametersSelected.
Proof.
  apply (nothing_selected_no_search default_gui); reflexivity.
Defined.

(** ** Closed forms and numeric bounds *)

Lemma PI_bounds : 3.13 < PI < 3.24.
Proof.
  destruct (PI_2_3_7_ineq 0) as [Hlo Hhi].
  unfold sum_f_R0, tg_alt, PI_2_3_7_tg, Ratan_seq in Hlo, Hhi.
  cbn [Nat.mul Nat.add pow INR] in Hlo, Hhi.
  split; lra.
Qed.

Lemma PI_cube_bounds : 30.6 < PI ^ 3 < 34.02.
Proof.
  destruct PI_bounds as [Hlo Hhi].
  split.
  - apply Rlt_le_trans with (3.13 ^ 3); [lra | ].
    apply pow_incr. lra.
  - apply Rle_lt_trans with (3.24 ^ 3); [ | lra].
    apply pow_incr. lra.
Qed.

Lemma pow_three_halves_bounds (x lo hi : R) :
  0 <= lo -> lo * lo <= x -> x <= hi * hi -> 0 <= hi ->
  x * lo <= Spec.pow_three_halves x <= x * hi.
Proof.
  intros Hlo Hx1 Hx2 Hhi.
  assert (0 <= x) as Hx by nra.
  assert (lo <= sqrt x <= hi) as [H1 H2].
  { split.
    - rewrite <- (sqrt_square lo) by assumption.
      apply sqrt_le_1; nra.
    - rewrite <- (sqrt_square hi) by assumption.
      apply sqrt_le_1; nra. }
  unfold Spec.pow_three_halves. split; nra.
Qed.

(** The thrust of a turning propeller whose pitch does not exceed its
    diameter, with both clamps inactive. *)
Lemma propeller_thrust_closed_form
      (self : DroneCalculator) (diameter pitch rpm efficiency : R) :
  0 < rpm -> 0 < diameter -> pitch <= diameter -> 0 <= efficiency ->
  0 <= air_density self ->
  calculate_propeller_thrust self diameter pitch rpm efficiency
  = Ok (0.1 * (1 - pitch / diameter) * efficiency * air_density self
        * (diameter * 0.0254 / 2) ^ 2
        * (rpm / 60 * (diameter * 0.0254)) ^ 2 * PI ^ 3 * 101.97).
Proof.
  intros Hrpm Hd Hp He Hrho.
  pose proof PI_RGT_0 as Hpi.
  unfold calculate_propeller_thrust.
  destruct (Rgt_dec rpm 0) as [_ | H]; [ | lra].
  rewrite truediv_ok by nra. cbn [bind]. cbv zeta.
  replace (rpm * (pitch * 0.0254) / 60 / (rpm * (diameter * 0.0254) / 60))
    with (pitch / diameter) by (field; lra).
  assert (pitch / diameter <= 1) as Hratio.
  { apply Rmult_le_reg_r with diameter; [assumption | ].
    unfold Rdiv. rewrite Rmult_assoc, Rinv_l by lra. lra. }
  assert (0 <= 0.1 * (1 - pitch / diameter) * efficiency) as Hct.
  { apply Rmult_le_pos; [ | assumption]. nra. }
  rewrite (Rmax_right 0 (0.1 * (1 - pitch / diameter) * efficiency))
    by exact Hct.
  rewrite Rmax_right.
  - f_equal. ring.
  - apply Rmult_le_pos; [ | lra].
    apply Rmult_le_pos; [ | apply pow2_ge_0].
    apply Rmult_le_pos; [now apply Rmult_le_pos | ].
    apply Rmult_le_pos; [lra | apply pow2_ge_0].
Qed.

(** Thrust, power and flight time of [k] motors on a live battery, with
    positive KV, diameter and efficiencies and a pitch below the diameter:
    [tn] is the thrust of one motor in newtons, [p] the total power. *)
Lemma powered_chain (V kv d pitch eff meff cap : R) (k : Z) :
  0 < V -> 0 < kv -> 0 < d -> pitch < d -> 0 < eff -> 0 < meff ->
  (0 < k)%Z ->
  let tn :=
    0.1 * (1 - pitch / d) * eff * 1.225 * (d * 0.0254 / 2) ^ 2
    * (kv * V / 60 * (d * 0.0254)) ^ 2 * PI ^ 3 in
  let p := Spec.pow_three_halves tn / (meff * 10) * IZR k in
  0 < tn /\ 0 < p
  /\ calculate_propeller_thrust calculator d pitch
       (calculate_motor_rpm calculator V kv 0) eff = Ok (tn * 101.97)
  /\ calculate_power_consumption calculator (tn * 101.97) meff
     = Ok (Spec.pow_three_halves tn / (meff * 10))
  /\ calculate_flight_time calculator cap p V = Ok (cap / 1000 / (p / V) * 60).
Proof.
  intros Hv Hkv Hd Hp He Hme Hk tn p.
  pose proof PI_cube_bounds as [Hpi _].
  assert (0 < IZR k) as Hn by now apply (IZR_lt 0).
  assert (0 < tn) as Htn.
  { unfold tn.
    assert (pitch / d < 1) as Hratio.
    { apply Rmult_lt_reg_r with d; [assumption | ].
      unfold Rdiv. rewrite Rmult_assoc, Rinv_l by lra. lra. }
    assert (0 < kv * V) as Hrpm by (apply Rmult_lt_0_compat; lra).
    apply Rmult_lt_0_compat; [ | lra].
    apply Rmult_lt_0_compat;
      [ | apply pow_lt; apply Rmult_lt_0_compat; lra].
    apply Rmult_lt_0_compat; [ | apply pow_lt; lra].
    apply Rmult_lt_0_compat; [ | lra].
    apply Rmult_lt_0_compat; [lra | assumption]. }
  assert (0 < p) as Hpp.
  { unfold p. apply Rmult_lt_0_compat; [ | assumption].
    apply Rdiv_lt_0_compat; [ | lra].
    unfold Spec.pow_three_halves.
    apply Rmult_lt_0_compat; [assumption | now apply sqrt_lt_R0]. }
  split; [assumption | split; [assumption | ]].
  assert (calculate_motor_rpm calculator V kv 0 = kv * V) as Hrpm.
  { unfold calculate_motor_rpm.
    replace (V - 0 * 0.1) with V by ring.
    rewrite Rmax_right by lra. reflexivity. }
  split; [ | split].
  - rewrite Hrpm.
    rewrite propeller_thrust_closed_form;
      [ | nra | assumption | lra | lra
        | cbn [air_density calculator DroneCalculator_init]; lra ].
    reflexivity.
  - rewrite power_consumption_ok by lra.
    unfold Spec.powerConsumption.
    replace (tn * 101.97 / 101.97) with tn by (field; lra).
    reflexivity.
  - rewrite flight_time_powered by lra. reflexivity.
Qed.

Lemma candidate_metrics_closed_form
      (self : DroneCalculatorGUI) (d kv cap : R) (k : Z) :
  0 < battery_voltage self -> 0 < kv -> 0 < d -> prop_pitch self < d ->
  (0 < k)%Z ->
  let tn :=
    0.1 * (1 - prop_pitch self / d) * 0.8 * 1.225
    * (d * 0.0254 / 2) ^ 2
    * (kv * battery_voltage self / 60 * (d * 0.0254)) ^ 2 * PI ^ 3 in
  let w :=
    motor_weight self * IZR k + battery_weight self + frame_weight self
    + flight_controller_weight self + camera_weight self
    + additional_payload self + wiring_weight self in
  let p := Spec.pow_three_halves tn / (0.85 * 10) * IZR k in
  0 < tn /\ 0 < p
  /\ exists m,
      candidate_metrics self d kv cap k = Ok m
      /\ m_total_thrust m = tn * 101.97 * IZR k
      /\ m_total_weight m = w
      /\ m_twr m = (if Rgt_dec w 0 then tn * 101.97 * IZR k / w else 0)
      /\ m_power m = p
      /\ m_flight_time m = cap / 1000 / (p / battery_voltage self) * 60.
Proof.
  intros Hv Hkv Hd Hp Hk tn w p.
  destruct (powered_chain (battery_voltage self) kv d (prop_pitch self)
              0.8 0.85 cap k) as (Htn & Hpp & Ht & Hpow & Hft);
    try assumption; try lra.
  split; [assumption | split; [assumption | ]].
  eexists. split.
  - apply (candidate_metrics_intro self d kv cap k _ _ _ Ht Hpow Hft).
  - cbn [m_total_thrust m_total_weight m_twr m_power m_flight_time].
    repeat split; reflexivity.
Qed.

Lemma update_calculations_closed_form (self : DroneCalculatorGUI) :
  0 < battery_voltage self -> 0 < motor_kv self -> 0 < prop_diameter self ->
  prop_pitch self < prop_diameter self ->
  0 < prop_efficiency self -> 0 < motor_efficiency self ->
  (0 < num_motors self)%Z ->
  let k := IZR (num_motors self) in
  let tn :=
    0.1 * (1 - prop_pitch self / prop_diameter self)
    * (prop_efficiency self / 100) * 1.225
    * (prop_diameter self * 0.0254 / 2) ^ 2
    * (motor_kv self * battery_voltage self / 60
       * (prop_diameter self * 0.0254)) ^ 2 * PI ^ 3 in
  let w :=
    motor_weight self * k + battery_weight self + esc_weight self * k
    + frame_weight self + flight_controller_weight self + camera_weight self
    + additional_payload self + wiring_weight self in
  let p := Spec.pow_three_halves tn / (motor_efficiency self / 100 * 10) * k in
  0 < tn /\ 0 < p
  /\ exists r,
      update_calculations self = Ok r
      /\ r_total_thrust r = tn * 101.97 * k
      /\ r_total_weight r = w
      /\ r_twr r = (if Rgt_dec w 0 then tn * 101.97 * k / w else 0)
      /\ r_total_power r = p
      /\ r_flight_time r
         = battery_capacity self / 1000 / (p / battery_voltage self) * 60.
Proof.
  intros Hv Hkv Hd Hp He Hme Hk k tn w p.
  destruct (powered_chain (battery_voltage self) (motor_kv self)
              (prop_diameter self) (prop_pitch self)
              (prop_efficiency self / 100) (motor_efficiency self / 100)
              (battery_capacity self) (num_motors self))
    as (Htn & Hpp & Ht & Hpow & Hft);
    try assumption; try lra.
  split; [assumption | split; [assumption | ]].
  eexists. split.
  - apply (update_calculations_intro self _ _ _ Ht Hpow Hft).
  - cbn [r_total_thrust r_total_weight r_twr r_total_power r_flight_time].
    repeat split; reflexivity.
Qed.

(** The combination (10 in, 1000 KV, 5000 mAh, 4 motors) on the default
    widget values, whatever the check boxes are. *)
Lemma default_combination_metrics (a b c d : bool) :
  exists m,
    candidate_metrics (select default_gui a b c d) 10 1000 5000 4 = Ok m
    /\ m_total_weight m = 880
    /\ 26 <= m_twr m <= 31
    /\ 190 <= m_power m <= 280
    /\ 11 <= m_flight_time m <= 18.
Proof.
  destruct (candidate_metrics_closed_form (select default_gui a b c d)
              10 1000 5000 4)
    as (Htn & Hp & m & Hm & _ & Hw & Htwr & Hpow & Hft);
    try (cbv [select default_gui battery_voltage prop_pitch]; lra);
    try reflexivity.
  cbv [select default_gui battery_voltage prop_pitch motor_weight
       battery_weight frame_weight flight_controller_weight camera_weight
       additional_payload wiring_weight] in Htn, Hp, Hw, Htwr, Hpow, Hft.
  pose proof PI_cube_bounds as [Hpi1 Hpi2].
  set (tn := 0.1 * (1 - 4.5 / 10) * 0.8 * 1.225 * (10 * 0.0254 / 2) ^ 2
             * (1000 * 11.1 / 60 * (10 * 0.0254)) ^ 2 * PI ^ 3) in *.
  assert (58 < tn < 66) as [Htn1 Htn2] by (unfold tn; lra).
  destruct (pow_three_halves_bounds tn 7 9) as [Hs1 Hs2]; try lra.
  set (s := Spec.pow_three_halves tn) in *.
  assert (190 <= m_power m <= 280) as [Hp1 Hp2] by (rewrite Hpow; lra).
  exists m. split; [exact Hm | ].
  split; [rewrite Hw; lra | ].
  split.
  { rewrite Htwr.
    destruct (Rgt_dec _ 0) as [_ | H]; [lra | exfalso; lra]. }
  split; [lra | ].
  rewrite <- Hpow in Hft.
  assert (m_flight_time m * m_power m = 3330) as Hprod.
  { rewrite Hft. replace 11.1 with (111 / 10) by lra. field. lra. }
  split; nra.
Qed.

(** The default widget values evaluated by [update_calculations]. *)
Lemma default_evaluation (a b c d : bool) :
  exists r,
    update_calculations (select default_gui a b c d) = Ok r
    /\ r_total_weight r = 980
    /\ 23 <= r_twr r <= 28
    /\ 190 <= r_total_power r <= 280
    /\ 11 <= r_flight_time r <= 18.
Proof.
  destruct (update_calculations_closed_form (select default_gui a b c d))
    as (Htn & Hp & r & Hr & _ & Hw & Htwr & Hpow & Hft);
    try (cbv [select default_gui battery_voltage prop_pitch prop_diameter
              motor_kv prop_efficiency motor_efficiency]; lra);
    try reflexivity.
  cbv [select default_gui battery_voltage prop_pitch prop_diameter motor_kv
       prop_efficiency motor_efficiency num_motors motor_weight esc_weight
       battery_weight frame_weight flight_controller_weight camera_weight
       additional_payload wiring_weight battery_capacity]
    in Htn, Hp, Hw, Htwr, Hpow, Hft.
  pose proof PI_cube_bounds as [Hpi1 Hpi2].
  set (tn := 0.1 * (1 - 4.5 / 10) * (80 / 100) * 1.225 * (10 * 0.0254 / 2) ^ 2
             * (1000 * 11.1 / 60 * (10 * 0.0254)) ^ 2 * PI ^ 3) in *.
  assert (58 < tn < 66) as [Htn1 Htn2] by (unfold tn; lra).
  destruct (pow_three_halves_bounds tn 7 9) as [Hs1 Hs2]; try lra.
  set (s := Spec.pow_three_halves tn) in *.
  assert (190 <= r_total_power r <= 280) as [Hp1 Hp2] by (rewrite Hpow; lra).
  exists r. split; [exact Hr | ].
  split; [rewrite Hw; lra | ].
  split.
  { rewrite Htwr.
    destruct (Rgt_dec _ 0) as [_ | H]; [lra | exfalso; lra]. }
  split; [lra | ].
  rewrite <- Hpow in Hft.
  assert (r_flight_time r * r_total_power r = 3330) as Hprod.
  { rewrite Hft. replace 11.1 with (111 / 10) by lra. field. lra. }
  split; nra.
Qed.

(** The four combinations searched from [heavy_gui]. *)
Lemma heavy_combination_metrics (cap : R) :
  3000 <= cap <= 10000 ->
  exists m,
    candidate_metrics heavy_gui 20 750 cap 2 = Ok m
    /\ m_total_weight m = 9900
    /\ 1 <= m_twr m <= 1.3
    /\ 87 <= m_power m <= 113
    /\ 5 <= m_flight_time m <= 26.
Proof.
  intros Hcap.
  destruct (candidate_metrics_closed_form heavy_gui 20 750 cap 2)
    as (Htn & Hp & m & Hm & _ & Hw & Htwr & Hpow & Hft);
    try (cbv [heavy_gui battery_voltage prop_pitch]; lra);
    try reflexivity.
  cbv [heavy_gui battery_voltage prop_pitch motor_weight
       battery_weight frame_weight flight_controller_weight camera_weight
       additional_payload wiring_weight] in Htn, Hp, Hw, Htwr, Hpow, Hft.
  pose proof PI_cube_bounds as [Hpi1 Hpi2].
  set (tn := 0.1 * (1 - 10 / 20) * 0.8 * 1.225 * (20 * 0.0254 / 2) ^ 2
             * (750 * 3.7 / 60 * (20 * 0.0254)) ^ 2 * PI ^ 3) in *.
  assert (53 < tn < 60) as [Htn1 Htn2] by (unfold tn; lra).
  destruct (pow_three_halves_bounds tn 7 8) as [Hs1 Hs2]; try lra.
  set (s := Spec.pow_three_halves tn) in *.
  assert (87 <= m_power m <= 113) as [Hp1 Hp2] by (rewrite Hpow; lra).
  exists m. split; [exact Hm | ].
  split; [rewrite Hw; lra | ].
  split.
  { rewrite Htwr.
    destruct (Rgt_dec _ 0) as [_ | H]; [lra | exfalso; lra]. }
  split; [lra | ].
  rewrite <- Hpow in Hft.
  assert (m_flight_time m * m_power m = cap * 0.222) as Hprod.
  { rewrite Hft. replace 3.7 with (37 / 10) by lra.
    replace 0.222 with (222 / 1000) by lra. field. lra. }
  split; nra.
Qed.

(** ** The optimizer against the evaluator *)

(** The loop leaves the speed controllers out of the weight. *)
Lemma optimizer_weight_gap (self : DroneCalculatorGUI) (c : Candidate)
      (m : Metrics) (r : PerformanceResult) :
  metrics_of self c = Ok m ->
  update_calculations (substitute self c) = Ok r ->
  r_total_weight r
  = m_total_weight m + esc_weight self * IZR (snd c).
Proof.
  destruct c as [[[d kv] cap] k]. intros Hm Hr.
  cbn [metrics_of] in Hm.
  rewrite (candidate_metrics_weight self d kv cap k m Hm).
  destruct (update_calculations_inv _ r Hr) as (t & p & ft & _ & _ & _ & ->).
  cbn [r_total_weight substitute motor_weight num_motors battery_weight
       esc_weight frame_weight flight_controller_weight camera_weight
       additional_payload wiring_weight snd].
  ring.
Qed.

(** Where the two computations meet: with the efficiency widgets at 80 %
    and 85 % (the methods' defaults) and speed controllers of no weight,
    the loop's metrics are those of [update_calculations]. *)
Lemma optimizer_agrees_at_defaults (self : DroneCalculatorGUI)
      (c : Candidate) (m : Metrics) :
  prop_efficiency self = 80 -> motor_efficiency self = 85 ->
  esc_weight self = 0 ->
  metrics_of self c = Ok m ->
  exists r,
    update_calculations (substitute self c) = Ok r
    /\ r_total_thrust r = m_total_thrust m
    /\ r_total_weight r = m_total_weight m
    /\ r_twr r = m_twr m
    /\ r_total_power r = m_power m
    /\ r_flight_time r = m_flight_time m.
Proof.
  destruct c as [[[d kv] cap] k]. intros He Hme Hesc Hm.
  cbn [metrics_of] in Hm.
  destruct (candidate_metrics_inv self d kv cap k m Hm)
    as (t & p & ft & Ht & Hp & Hft & ->).
  eexists. split.
  - apply (update_calculations_intro (substitute self (d, kv, cap, k)) t p ft);
      cbn [substitute prop_diameter prop_pitch prop_efficiency motor_kv
           motor_efficiency battery_voltage battery_capacity num_motors].
    + rewrite He. replace (80 / 100) with 0.8 by lra. exact Ht.
    + rewrite Hme. replace (85 / 100) with 0.85 by lra. exact Hp.
    + exact Hft.
  - cbn [r_total_thrust r_total_weight r_twr r_total_power r_flight_time
         m_total_thrust m_total_weight m_twr m_power m_flight_time
         substitute motor_weight num_motors battery_weight esc_weight
         frame_weight flight_controller_weight camera_weight
         additional_payload wiring_weight].
    rewrite Hesc.
    match goal with
    | |- context [Rgt_dec ?a 0] =>
      match goal with
      | |- context [?b / a] => idtac
      end;
      replace a with
        (motor_weight self * IZR k + battery_weight self + frame_weight self
         + flight_controller_weight self + camera_weight self
         + additional_payload self + wiring_weight self) by ring
    end.
    repeat split; reflexivity.
Qed.

(** The loop computes the thrust with the default propeller efficiency 0.8
    where the evaluator uses the efficiency entered in the widget. *)
Lemma optimizer_thrust_gap (self : DroneCalculatorGUI) (c : Candidate) :
  0 < battery_voltage self -> 0 < fst (fst (fst c)) ->
  0 < snd (fst (fst c)) -> prop_pitch self < fst (fst (fst c)) ->
  0 < prop_efficiency self -> 0 < motor_efficiency self ->
  (0 < snd c)%Z ->
  exists m r,
    metrics_of self c = Ok m
    /\ update_calculations (substitute self c) = Ok r
    /\ 0 < m_total_thrust m
    /\ r_total_thrust r * 0.8
       = m_total_thrust m * (prop_efficiency self / 100).
Proof.
  destruct c as [[[d kv] cap] k]. cbn [fst snd].
  intros Hv Hd Hkv Hp He Hme Hk.
  destruct (candidate_metrics_closed_form self d kv cap k)
    as (Htn & _ & m & Hm & Ht & _); try assumption.
  destruct (update_calculations_closed_form (substitute self (d, kv, cap, k)))
    as (_ & _ & r & Hr & Ht' & _); try assumption.
  cbn [substitute prop_pitch prop_diameter prop_efficiency motor_kv
       battery_voltage num_motors] in Ht'.
  exists m, r. split; [exact Hm | split; [exact Hr | ]].
  assert (0 < IZR k) as Hn by now apply (IZR_lt 0).
  split.
  - rewrite Ht. apply Rmult_lt_0_compat; [ | assumption]. lra.
  - rewrite Ht, Ht'. ring.
Qed.

(** C1: on the default widget values with every parameter selected, the
    combination (10 in, 1000 KV, 5000 mAh, 4 motors) is visited by the
    search, which gives it a total weight of 880 g, while
    [update_calculations] on the same configuration gives 980 g: the loop
    omits [esc_weight * motor_count]. *)
Theorem optimizer_weight_differs_from_evaluation :
  In (10, 1000, 5000, 4%Z) (grid all_axes_gui)
  /\ exists m r,
      metrics_of all_axes_gui (10, 1000, 5000, 4%Z) = Ok m
      /\ update_calculations (substitute all_axes_gui (10, 1000, 5000, 4%Z))
         = Ok r
      /\ m_total_weight m = 880
      /\ r_total_weight r = 980.
Proof.
  split.
  - cbv [grid all_axes_gui select default_gui prop_diameters motor_kvs
         battery_caps motor_counts optimize_params param_in existsb
         Param_eqb app opt_prop_diameter opt_motor_kv opt_battery_capacity
         opt_num_motors flat_map map orb].
    cbn [In]. tauto.
  - destruct (default_combination_metrics true true true true)
      as (m & Hm & Hw & _).
    destruct (default_evaluation true true true true) as (r & Hr & Hw' & _).
    exists m, r. repeat split; assumption.
Qed.

(** C2: from [heavy_gui] the search visits four combinations; each of them
    satisfies both constraints and has TWR >= 1, yet the method reports
    that no valid configuration exists, because every score is negative
    and [best_score] starts at 0. *)
Theorem admissible_combinations_reported_infeasible :
  grid heavy_gui
  = [(20, 750, 3000, 2%Z); (20, 750, 5000, 2%Z);
     (20, 750, 8000, 2%Z); (20, 750, 10000, 2%Z)]
  /\ (forall c, In c (grid heavy_gui) ->
                exists m, metrics_of heavy_gui c = Ok m
                          /\ admissible heavy_gui m /\ score_of m < 0)
  /\ run_optimization heavy_gui = Ok NoValidConfiguration.
Proof.
  assert (grid heavy_gui
          = [(20, 750, 3000, 2%Z); (20, 750, 5000, 2%Z);
             (20, 750, 8000, 2%Z); (20, 750, 10000, 2%Z)]) as Hgrid
      by reflexivity.
  assert (forall c, In c (grid heavy_gui) ->
                    exists m, metrics_of heavy_gui c = Ok m
                              /\ admissible heavy_gui m /\ score_of m < 0)
    as Hall.
  { intros c Hin. rewrite Hgrid in Hin.
    assert (exists cap, c = (20, 750, cap, 2%Z) /\ 3000 <= cap <= 10000)
      as (cap & -> & Hcap).
    { cbn [In] in Hin.
      destruct Hin as [<- | [<- | [<- | [<- | []]]]];
        eexists; (split; [reflexivity | lra]). }
    destruct (heavy_combination_metrics cap Hcap)
      as (m & Hm & Hw & Htwr & Hp & Hft).
    exists m. split; [exact Hm | ].
    unfold admissible, score_of.
    cbv [heavy_gui max_weight min_flight_time].
    repeat split; lra. }
  split; [exact Hgrid | split; [exact Hall | ]].
  apply no_valid_configuration_iff.
  - discriminate.
  - cbv [heavy_gui prop_diameters optimize_params param_in existsb Param_eqb
         app opt_prop_diameter opt_motor_kv opt_battery_capacity
         opt_num_motors prop_diameter orb].
    cbn [In]. intros [H | []]. lra.
  - intros c m Hin Hm _.
    destruct (Hall c Hin) as (m' & Hm' & _ & Hneg).
    rewrite Hm in Hm'. inversion Hm'; subst m'. lra.
Qed.

Lemma found_is_first_maximum_witness :
  exists best,
    run_optimization all_axes_gui = Ok (Found best)
    /\ cfg_total_weight best <= 2000
    /\ cfg_flight_time best >= 10
    /\ cfg_twr best >= 1.
Proof.
  assert (exists best, run_optimization all_axes_gui = Ok (Found best))
    as [best Hbest].
  { apply found_iff_positive_admissible.
    - discriminate.
    - cbv [all_axes_gui select default_gui prop_diameters optimize_params
           param_in existsb Param_eqb app opt_prop_diameter opt_motor_kv
           opt_battery_capacity opt_num_motors orb].
      cbn [In]. intros [H | [H | [H | [H | []]]]]; lra.
    - destruct (default_combination_metrics true true true true)
        as (m & Hm & Hw & Htwr & Hp & Hft).
      exists (10, 1000, 5000, 4%Z), m.
      split.
      { cbv [grid all_axes_gui select default_gui prop_diameters motor_kvs
             battery_caps motor_counts optimize_params param_in existsb
             Param_eqb app opt_prop_diameter opt_motor_kv
             opt_battery_capacity opt_num_motors flat_map map orb].
        cbn [In]. tauto. }
      split; [exact Hm | ].
      unfold admissible, score_of.
      cbv [all_axes_gui select default_gui max_weight min_flight_time].
      repeat split; lra. }
  exists best. split; [exact Hbest | ].
  destruct (found_is_first_maximum all_axes_gui best Hbest)
    as (l1 & c & l2 & m & _ & _ & _ & Hw & Hf & Ht & _).
  repeat split; assumption.
Defined.

(** C4 as stated fails on the widgets' default values: no parameter is
    selected and the template satisfies both constraints (980 g <= 2000 g,
    flight time >= 10 min, with TWR >= 1), yet the method reports that no
    parameter was selected and produces no score. *)
Lemma default_template_gets_no_score :
  optimize_params default_gui = []
  /\ (exists r,
         update_calculations default_gui = Ok r
         /\ r_total_weight r <= max_weight default_gui
         /\ r_flight_time r >= min_flight_time default_gui
         /\ r_twr r >= 1)
  /\ run_optimization default_gui = Ok NoParametersSelected
  /\ ~ (exists best, run_optimization default_gui = Ok (Found best)).
Proof.
  split; [reflexivity | ].
  split.
  - destruct (default_evaluation false false false false)
      as (r & Hr & Hw & Htwr & _ & Hft).
    exists r. split; [exact Hr | ].
    cbv [default_gui max_weight min_flight_time].
    repeat split; lra.
  - split; [reflexivity | ].
    intros [best H]. discriminate H.
Qed.

(** * Further properties of the calculator *)

(** ** Physics methods: errors, clamps and scaling *)

(** X2: a turning propeller whose pitch is at least its diameter gives
    exactly zero thrust, for every efficiency that is not negative: the
    thrust coefficient [0.1 * (1 - pitch/diameter) * efficiency] is clamped
    at 0. *)
Theorem overpitched_propeller_no_thrust
        (self : DroneCalculator) (diameter pitch rpm efficiency : R) :
  0 < diameter -> diameter <= pitch -> 0 <= efficiency -> 0 <= rpm ->
  calculate_propeller_thrust self diameter pitch rpm efficiency = Ok 0.
Proof.
  intros Hd Hp He Hrpm.
  destruct (Req_dec_T rpm 0) as [-> | Hnz].
  { now apply propeller_thrust_rpm_nonpos. }
  unfold calculate_propeller_thrust.
  destruct (Rgt_dec rpm 0) as [_ | H]; [ | exfalso; lra].
  rewrite truediv_ok by nra. cbn [bind]. cbv zeta.
  replace (rpm * (pitch * 0.0254) / 60 / (rpm * (diameter * 0.0254) / 60))
    with (pitch / diameter) by (field; lra).
  assert (1 <= pitch / diameter) as Hratio.
  { apply Rmult_le_reg_r with diameter; [assumption | ].
    unfold Rdiv. rewrite Rmult_assoc, Rinv_l by lra. lra. }
  rewrite (Rmax_left 0 (0.1 * (1 - pitch / diameter) * efficiency)) by nra.
  f_equal.
  match goal with
  | |- Rmax 0 ?x = 0 => replace x with 0 by ring
  end.
  apply Rmax_left. lra.
Qed.

Lemma overpitched_propeller_no_thrust_witness :
  calculate_propeller_thrust calculator 10 12 11100 0.8 = Ok 0.
Proof.
  apply (overpitched_propeller_no_thrust calculator 10 12 11100 0.8); lra.
Defined.

(** X3: the thrust is quadratic in the rpm: scaling the rpm by k > 0
    scales the thrust by k^2, and a call that raises still raises. *)
Theorem propeller_thrust_quadratic_in_rpm
        (self : DroneCalculator) (diameter pitch rpm efficiency k : R) :
  0 < k ->
  calculate_propeller_thrust self diameter pitch (k * rpm) efficiency
  = (t <- calculate_propeller_thrust self diameter pitch rpm efficiency ;;
     Ok (k ^ 2 * t)).
Proof.
  intros Hk. unfold calculate_propeller_thrust.
  assert (forall x, Rmax 0 (k ^ 2 * x) = k ^ 2 * Rmax 0 x) as Hmax.
  { intros x. assert (0 < k ^ 2) by (apply pow_lt; assumption).
    unfold Rmax. destruct (Rle_dec 0 (k ^ 2 * x)), (Rle_dec 0 x);
      try reflexivity; nra. }
  destruct (Rgt_dec rpm 0) as [Hrpm | Hrpm].
  - destruct (Rgt_dec (k * rpm) 0) as [_ | H]; [ | exfalso; nra].
    destruct (Req_dec_T diameter 0) as [-> | Hd].
    + replace (k * rpm * (0 * 0.0254) / 60) with 0 by lra.
      replace (rpm * (0 * 0.0254) / 60) with 0 by lra.
      rewrite !truediv_zero. reflexivity.
    + rewrite !truediv_ok.
      * cbn [bind]. cbv zeta.
        replace (k * rpm * (pitch * 0.0254) / 60
                 / (k * rpm * (diameter * 0.0254) / 60))
          with (rpm * (pitch * 0.0254) / 60
                / (rpm * (diameter * 0.0254) / 60)) by (field; lra).
        rewrite <- Hmax. f_equal. f_equal. unfold Rdiv. ring.
      * intros Hz. assert (rpm * diameter = 0) as Hm by lra.
        apply Rmult_integral in Hm. destruct Hm; lra.
      * intros Hz. assert (k * (rpm * diameter) = 0) as Hm by lra.
        apply Rmult_integral in Hm. destruct Hm as [Hm | Hm]; [lra | ].
        apply Rmult_integral in Hm. destruct Hm; lra.
  - destruct (Rgt_dec (k * rpm) 0) as [H | _]; [exfalso; nra | ].
    cbn [bind]. cbv zeta. rewrite <- Hmax. f_equal. f_equal.
    unfold Rdiv. ring.
Qed.

Lemma propeller_thrust_quadratic_in_rpm_witness :
  calculate_propeller_thrust calculator 10 4.5 (2 * 5000) 0.8
  = (t <- calculate_propeller_thrust calculator 10 4.5 5000 0.8 ;;
     Ok (2 ^ 2 * t)).
Proof.
  apply (propeller_thrust_quadratic_in_rpm calculator 10 4.5 5000 0.8 2). lra.
Defined.

(** X4: a motor never turns backwards and stalls under load: for kv >= 0
    the rpm is >= 0 whatever the voltage and the load current are, and it
    is exactly 0 once the loss [load_current * 0.1] reaches the voltage. *)
Theorem motor_rpm_clamped
        (self : DroneCalculator) (voltage kv load_current : R) :
  (0 <= kv -> 0 <= calculate_motor_rpm self voltage kv load_current)
  /\ (voltage <= load_current * 0.1 ->
      calculate_motor_rpm self voltage kv load_current = 0).
Proof.
  unfold calculate_motor_rpm. split.
  - intros Hkv. apply Rmult_le_pos; [assumption | apply Rmax_l].
  - intros Hload. rewrite Rmax_left by lra. ring.
Qed.

Lemma motor_rpm_clamped_witness :
  0 <= calculate_motor_rpm calculator (-5) 1000 0
  /\ calculate_motor_rpm calculator 11.1 1000 111 = 0.
Proof.
  split.
  - apply (motor_rpm_clamped calculator (-5) 1000 0). lra.
  - apply (motor_rpm_clamped calculator 11.1 1000 111). lra.
Defined.

(** X5: the power grows with the thrust to the power 3/2: for a thrust
    >= 0, scaling it by k >= 0 scales the power by [k * sqrt k], and a
    call that raises still raises. *)
Theorem power_consumption_scaling
        (self : DroneCalculator) (thrust_grams motor_efficiency k : R) :
  0 <= thrust_grams -> 0 <= k ->
  calculate_power_consumption self (k * thrust_grams) motor_efficiency
  = (p <- calculate_power_consumption self thrust_grams motor_efficiency ;;
     Ok (k * sqrt k * p)).
Proof.
  intros Ht Hk.
  destruct (Req_dec_T motor_efficiency 0) as [-> | He].
  - rewrite !power_consumption_zero_efficiency by nra. reflexivity.
  - rewrite !power_consumption_ok by (assumption || nra). cbn [bind].
    f_equal. unfold Spec.powerConsumption, Spec.pow_three_halves.
    replace (k * thrust_grams / 101.97) with (k * (thrust_grams / 101.97))
      by (unfold Rdiv; ring).
    rewrite sqrt_mult by lra. field. lra.
Qed.

Lemma power_consumption_scaling_witness :
  calculate_power_consumption calculator (4 * 1000) 0.85
  = (p <- calculate_power_consumption calculator 1000 0.85 ;;
     Ok (4 * sqrt 4 * p)).
Proof.
  apply (power_consumption_scaling calculator 1000 0.85 4); lra.
Defined.



(** X8: the flight time is proportional to the battery capacity: scaling
    the capacity by k scales the flight time by k, whatever the power and
    the voltage are, and a call that raises still raises. *)
Theorem flight_time_proportional_to_capacity
        (self : DroneCalculator)
        (battery_capacity_mah total_power_watts voltage k : R) :
  calculate_flight_time self (k * battery_capacity_mah) total_power_watts
    voltage
  = (ft <- calculate_flight_time self battery_capacity_mah
             total_power_watts voltage ;;
     Ok (k * ft)).
Proof.
  unfold calculate_flight_time.
  destruct (Rle_dec total_power_watts 0) as [Hp | Hp].
  - cbn [bind]. f_equal. ring.
  - unfold truediv at 1 3.
    destruct (Req_dec_T voltage 0) as [Hv | Hv]; [reflexivity | ].
    cbn [bind]. unfold truediv.
    destruct (Req_dec_T (total_power_watts / voltage) 0) as [Hc | Hc];
      [reflexivity | ].
    cbn [bind]. f_equal. unfold Rdiv. ring.
Qed.

(** ** update_calculations and update_analysis *)

(** X10: the maximum payload shown is the additional payload at which the
    thrust-to-weight ratio is exactly 2: when the results show a positive
    thrust and a positive maximum payload, entering that value as the
    additional payload leaves the thrust and the maximum payload unchanged
    and gives a TWR of 2. *)
Theorem max_payload_gives_twr_two
        (self : DroneCalculatorGUI) (r : PerformanceResult) :
  update_calculations self = Ok r ->
  0 < r_total_thrust r -> 0 < r_max_payload r ->
  exists r',
    update_calculations (set_additional_payload self (r_max_payload r))
    = Ok r'
    /\ r_twr r' = 2
    /\ r_total_thrust r' = r_total_thrust r
    /\ r_max_payload r' = r_max_payload r.
Proof.
  intros Hr Hthrust Hpay.
  destruct (update_calculations_inv self r Hr)
    as (t & p & ft & Ht & Hp & Hft & ->).
  cbn [r_total_thrust r_max_payload] in *.
  set (T := t * IZR (num_motors self)) in *.
  set (W := motor_weight self * IZR (num_motors self) + battery_weight self
            + esc_weight self * IZR (num_motors self) + frame_weight self
            + flight_controller_weight self + camera_weight self
            + additional_payload self + wiring_weight self) in *.
  set (base := W - additional_payload self) in *.
  assert (Rmax 0 (T / 2 - base) = T / 2 - base) as Hmax.
  { apply Rmax_right. unfold Rmax in Hpay.
    destruct (Rle_dec 0 (T / 2 - base)); lra. }
  rewrite Hmax in *.
  eexists. split.
  - apply (update_calculations_intro
             (set_additional_payload self (T / 2 - base)) t p ft);
      cbn [set_additional_payload prop_diameter prop_pitch prop_efficiency
           motor_kv motor_efficiency battery_voltage battery_capacity
           num_motors]; assumption.
  - cbn [r_twr r_total_thrust r_max_payload set_additional_payload
         motor_weight num_motors battery_weight esc_weight frame_weight
         flight_controller_weight camera_weight additional_payload
         wiring_weight].
    fold T.
    match goal with
    | |- context [Rgt_dec ?w 0] =>
      replace w with (T / 2) by (unfold base, W; field)
    end.
    split; [ | split; [reflexivity | ]].
    + destruct (Rgt_dec (T / 2) 0) as [_ | H]; [field; lra | exfalso; lra].
    + replace (T / 2 - (T / 2 - (T / 2 - base))) with (T / 2 - base) by ring.
      exact Hmax.
Qed.

Lemma default_thrust_and_payload :
  exists r,
    update_calculations default_gui = Ok r
    /\ 22000 <= r_total_thrust r
    /\ 10000 <= r_max_payload r.
Proof.
  destruct (default_evaluation false false false false)
    as (r & Hr & Hw & [Htwr _] & _).
  change (select default_gui false false false false) with default_gui in Hr.
  exists r. split; [exact Hr | ].
  destruct (update_calculations_inv default_gui r Hr)
    as (t & p & ft & _ & _ & _ & ->).
  cbn [r_total_thrust r_total_weight r_twr r_max_payload] in *.
  change (additional_payload default_gui) with 0.
  set (T := t * IZR (num_motors default_gui)) in *.
  match type of Hw with
  | ?w = 980 => set (W := w) in *
  end.
  assert (22000 <= T) as HT.
  { destruct (Rgt_dec W 0) as [Hpos | Hneg]; [ | exfalso; lra].
    assert (T = T / W * W) as -> by (field; lra).
    rewrite Hw in *. lra. }
  split; [exact HT | ].
  apply Rle_trans with (T / 2 - (W - 0)); [lra | apply Rmax_r].
Qed.

Lemma max_payload_gives_twr_two_witness :
  exists r r',
    update_calculations default_gui = Ok r
    /\ update_calculations
         (set_additional_payload default_gui (r_max_payload r)) = Ok r'
    /\ r_twr r' = 2.
Proof.
  destruct default_thrust_and_payload as (r & Hr & Ht & Hp).
  destruct (max_payload_gives_twr_two default_gui r Hr) as (r' & Hr' & H2 & _);
    [lra | lra | ].
  exists r, r'. repeat split; assumption.
Defined.

Lemma flight_time_nonneg (self : DroneCalculator) (cap p v ft : R) :
  0 <= cap -> 0 <= v ->
  calculate_flight_time self cap p v = Ok ft -> 0 <= ft.
Proof.
  intros Hcap Hv. unfold calculate_flight_time.
  destruct (Rle_dec p 0) as [Hp | Hp].
  - intros H. inversion H. lra.
  - unfold truediv. destruct (Req_dec_T v 0) as [E | Hnz]; [discriminate | ].
    cbn [bind]. destruct (Req_dec_T (p / v) 0); [discriminate | ].
    cbn [bind]. intros H. inversion H.
    apply Rmult_le_pos; [ | lra].
    apply Rmult_le_pos; [lra | ].
    apply Rlt_le, Rinv_0_lt_compat, Rdiv_lt_0_compat; lra.
Qed.

Lemma update_analysis_returns (twr flight_time power weight : R) :
  weight <> 0 ->
  exists a, update_analysis twr flight_time power weight = Ok a.
Proof.
  intros Hw. unfold update_analysis. cbv zeta.
  rewrite truediv_ok by assumption. cbn [bind]. eexists. reflexivity.
Qed.

Lemma update_analysis_weightless (twr flight_time power : R) :
  update_analysis twr flight_time power 0 = Raise ZeroDivisionError.
Proof.
  unfold update_analysis. cbv zeta. now rewrite truediv_zero.
Qed.

(** X11: for widget values within their ranges, [update_calculations]
    never takes its [except] clause on the way to the labels and the
    analysis text: the six results are produced, the total weight is at
    least 135 g, the TWR, the power and the flight time are not negative,
    and [update_analysis] returns its lines. *)
Theorem in_range_inputs_are_evaluated (self : DroneCalculatorGUI) :
  within_widget_ranges self ->
  exists r a,
    update_calculations self = Ok r
    /\ 135 <= r_total_weight r
    /\ 0 <= r_twr r
    /\ 0 <= r_total_power r
    /\ 0 <= r_flight_time r
    /\ update_analysis (r_twr r) (r_flight_time r) (r_total_power r)
         (r_total_weight r) = Ok a.
Proof.
  intros (Hd & Hpitch & Hpe & Hkv & Hme & Hmw & Hn & Hv & Hcap & Hbw & Hesc
          & Hfw & Hfc & Hcam & Hpay & Hwire & _).
  destruct (update_calculations_total self) as (t & ft & Ht & Hpos & Hft & E);
    [left; lra | lra | ].
  assert (1 <= IZR (num_motors self)) as Hn1 by (apply (IZR_le 1), Hn).
  set (n := IZR (num_motors self)) in *.
  set (W := motor_weight self * n + battery_weight self
            + esc_weight self * n + frame_weight self
            + flight_controller_weight self + camera_weight self
            + additional_payload self + wiring_weight self) in *.
  assert (135 <= W) as HW by (unfold W; nra).
  assert (0 <= Spec.powerConsumption t (motor_efficiency self / 100) * n)
    as Hpow.
  { apply Rmult_le_pos; [ | lra]. unfold Spec.powerConsumption.
    apply Rmult_le_pos.
    - apply pow_three_halves_nonneg.
      apply Rmult_le_pos; [assumption | lra].
    - apply Rlt_le, Rinv_0_lt_compat. lra. }
  assert (0 <= ft) as Hftpos.
  { apply (flight_time_nonneg calculator (battery_capacity self)
             (Spec.powerConsumption t (motor_efficiency self / 100) * n)
             (battery_voltage self) ft); [lra | lra | exact Hft]. }
  destruct (update_analysis_returns
              (if Rgt_dec W 0 then t * n / W else 0) ft
              (Spec.powerConsumption t (motor_efficiency self / 100) * n) W)
    as [a Ha]; [lra | ].
  eexists. exists a. split; [exact E | ].
  cbn [r_total_weight r_twr r_total_power r_flight_time].
  repeat split; try assumption.
  destruct (Rgt_dec W 0) as [_ | H]; [ | lra].
  apply Rmult_le_pos; [nra | ].
  apply Rlt_le, Rinv_0_lt_compat. lra.
Qed.

Lemma default_gui_within_ranges : within_widget_ranges default_gui.
Proof.
  unfold within_widget_ranges.
  cbv [default_gui prop_diameter prop_pitch prop_efficiency motor_kv
       motor_efficiency motor_weight num_motors battery_voltage
       battery_capacity battery_weight esc_weight frame_weight
       flight_controller_weight camera_weight additional_payload
       wiring_weight max_weight min_flight_time max_cost].
  repeat split; try lra; intros H; discriminate H.
Qed.

Lemma in_range_inputs_are_evaluated_witness :
  exists r a,
    update_calculations default_gui = Ok r
    /\ update_analysis (r_twr r) (r_flight_time r) (r_total_power r)
         (r_total_weight r) = Ok a.
Proof.
  destruct (in_range_inputs_are_evaluated default_gui
              default_gui_within_ranges)
    as (r & a & Hr & _ & _ & _ & _ & Ha).
  exists r, a. split; assumption.
Defined.

(** X12: the analysis has no guard for a weightless vehicle: after
    [update_calculations] has produced its results, [update_analysis]
    raises exactly when the total weight is 0 (where the TWR was guarded
    and set to 0), and otherwise its last line is the power loading
    [power / weight]. *)
Theorem analysis_raises_iff_weightless
        (self : DroneCalculatorGUI) (r : PerformanceResult) :
  update_calculations self = Ok r ->
  (update_analysis (r_twr r) (r_flight_time r) (r_total_power r)
     (r_total_weight r) = Raise ZeroDivisionError
   <-> r_total_weight r = 0)
  /\ (r_total_weight r = 0 -> r_twr r = 0)
  /\ (r_total_weight r <> 0 ->
      exists a,
        update_analysis (r_twr r) (r_flight_time r) (r_total_power r)
          (r_total_weight r) = Ok a
        /\ last a TwrGood
           = PowerLoading (r_total_power r / r_total_weight r)).
Proof.
  intros Hr.
  destruct (update_calculations_inv self r Hr)
    as (t & p & ft & _ & _ & _ & ->).
  cbn [r_twr r_flight_time r_total_power r_total_weight].
  match goal with
  | |- context [Rgt_dec ?w 0] => set (W := w)
  end.
  split; [ | split].
  - destruct (Req_dec_T W 0) as [E | Hnz].
    + rewrite E at 2. rewrite update_analysis_weightless. tauto.
    + destruct (update_analysis_returns
                  (if Rgt_dec W 0 then t * IZR (num_motors self) / W else 0)
                  ft (p * IZR (num_motors self)) W Hnz) as [a ->].
      split; [discriminate | contradiction].
  - intros E. destruct (Rgt_dec W 0); [exfalso; lra | reflexivity].
  - intros Hnz. unfold update_analysis. cbv zeta.
    rewrite truediv_ok by assumption. cbn [bind].
    eexists. split; [reflexivity | ].
    now rewrite last_last.
Qed.

Lemma analysis_raises_iff_weightless_witness :
  exists r a,
    update_calculations default_gui = Ok r
    /\ update_analysis (r_twr r) (r_flight_time r) (r_total_power r)
         (r_total_weight r) = Ok a
    /\ last a TwrGood = PowerLoading (r_total_power r / r_total_weight r).
Proof.
  destruct (default_evaluation false false false false)
    as (r & Hr & Hw & _).
  change (select default_gui false false false false) with default_gui in Hr.
  destruct (analysis_raises_iff_weightless default_gui r Hr)
    as (_ & _ & H).
  destruct H as [a Ha]; [rewrite Hw; lra | ].
  exists r, a. split; [exact Hr | exact Ha].
Defined.

(** ** update_performance_graph *)

Lemma list_comprehension_returns {A B : Type} (f : A -> result B)
      (xs : list A) :
  (forall x, In x xs -> exists y, f x = Ok y) ->
  exists ys, list_comprehension f xs = Ok ys /\ length ys = length xs.
Proof.
  induction xs as [ | x xs IH]; intros Hall.
  - exists []. split; reflexivity.
  - destruct (Hall x (or_introl eq_refl)) as [y Hy].
    destruct IH as (ys & Hys & Hlen); [intros z Hz; apply Hall; now right | ].
    exists (y :: ys). cbn [list_comprehension]. rewrite Hy. cbn [bind].
    rewrite Hys. cbn [bind length]. now rewrite Hlen.
Qed.

Lemma linspace_length (start stop : R) (num : nat) :
  length (linspace start stop num) = num.
Proof. unfold linspace. now rewrite length_map, length_seq. Qed.

(** The samples lie between the two ends. *)
Lemma linspace_bounds (start stop : R) (num : nat) (x : R) :
  start <= stop -> (2 <= num)%nat ->
  In x (linspace start stop num) -> start <= x <= stop.
Proof.
  intros Hle Hnum Hin. unfold linspace in Hin.
  apply in_map_iff in Hin. destruct Hin as (i & <- & Hi).
  apply in_seq in Hi. destruct Hi as [_ Hi]. cbn [Nat.add] in Hi.
  assert (0 < INR (num - 1)) as Hpos.
  { apply (lt_INR 0). destruct num as [ | [ | k]]; cbn.
    - inversion Hnum.
    - apply le_S_n in Hnum. inversion Hnum.
    - apply Nat.lt_0_succ. }
  assert (0 <= INR i <= INR (num - 1)) as [Hi0 Hi1].
  { split; [apply pos_INR | apply le_INR].
    destruct num as [ | k]; [inversion Hi | ].
    cbn. rewrite Nat.sub_0_r. now apply Nat.lt_succ_r. }
  set (step := (stop - start) / INR (num - 1)).
  assert (0 <= step) as Hstep.
  { unfold step. apply Rmult_le_pos; [lra | ].
    now apply Rlt_le, Rinv_0_lt_compat. }
  assert (INR (num - 1) * step = stop - start) as Hfull
      by (unfold step; field; lra).
  split; nra.
Qed.

(** X13: the flight-time curve is drawn for the power of the summed
    thrust, which is [sqrt n] times the total power shown in the results
    ([n] the number of motors, efficiencies at the defaults 80 % and 85 %):
    at the battery capacity entered, the curve lies below the displayed
    flight time by the factor [sqrt n]. *)
Theorem flight_time_curve_below_display
        (self : DroneCalculatorGUI) (r : PerformanceResult) :
  update_calculations self = Ok r ->
  prop_efficiency self = 80 -> motor_efficiency self = 85 ->
  (0 <= num_motors self)%Z ->
  let n := IZR (num_motors self) in
  graph_current_power self = Ok (sqrt n * r_total_power r)
  /\ exists ft,
      calculate_flight_time calculator (battery_capacity self)
        (sqrt n * r_total_power r) (battery_voltage self) = Ok ft
      /\ ft * sqrt n = r_flight_time r.
Proof.
  intros Hr Hpe Hme Hn n.
  destruct (update_calculations_inv self r Hr)
    as (t & p & ft & Ht & Hp & Hft & ->).
  cbn [r_total_power r_flight_time]. fold n in Hft |- *.
  rewrite Hpe in Ht. replace (80 / 100) with 0.8 in Ht by lra.
  rewrite Hme in Hp. replace (85 / 100) with 0.85 in Hp by lra.
  pose proof (propeller_thrust_inv _ _ _ _ _ _ Ht) as Htpos.
  assert (0 <= n) as Hnpos by (apply (IZR_le 0), Hn).
  rewrite power_consumption_ok in Hp by lra. injection Hp as Hpeq.
  assert (Spec.powerConsumption (t * n) 0.85 = sqrt n * (p * n)) as Hscale.
  { rewrite <- Hpeq. unfold Spec.powerConsumption, Spec.pow_three_halves.
    replace (t * n / 101.97) with (n * (t / 101.97)) by (unfold Rdiv; ring).
    rewrite sqrt_mult by lra. unfold Rdiv. ring. }
  split.
  - unfold graph_current_power, default_load_current, default_efficiency,
      default_motor_efficiency.
    rewrite Ht. cbn [bind]. fold n.
    rewrite power_consumption_ok; [ | now apply Rmult_le_pos | lra].
    now rewrite Hscale.
  - destruct (Rle_dec (p * n) 0) as [Hle | Hgt].
    + rewrite flight_time_no_power in Hft by assumption.
      inversion Hft. exists 0. split; [ | ring].
      apply flight_time_no_power.
      pose proof (sqrt_pos n). nra.
    + assert (0 < n) as Hn0.
      { destruct (Req_dec_T n 0) as [E | E]; [ | lra].
        exfalso. apply Hgt. rewrite E. lra. }
      assert (0 < sqrt n) as Hs by now apply sqrt_lt_R0.
      assert (0 < p) as Hp0 by nra.
      assert (battery_voltage self <> 0) as Hv.
      { intros E. rewrite E in Hft. unfold calculate_flight_time in Hft.
        destruct (Rle_dec (p * n) 0); [contradiction | ].
        rewrite truediv_zero in Hft. discriminate Hft. }
      rewrite flight_time_powered in Hft by (lra || assumption).
      inversion Hft as [Hfteq].
      rewrite flight_time_powered by (nra || assumption).
      eexists. split; [reflexivity | ].
      unfold Spec.flightTimeMinutes. field.
      repeat split; try lra; assumption.
Qed.

Lemma flight_time_curve_below_display_witness :
  exists r,
    update_calculations default_gui = Ok r
    /\ graph_current_power default_gui = Ok (sqrt 4 * r_total_power r).
Proof.
  destruct default_thrust_and_payload as (r & Hr & _).
  exists r. split; [exact Hr | ].
  apply (flight_time_curve_below_display default_gui r Hr);
    [reflexivity | reflexivity | intros H; discriminate H].
Defined.

Lemma list_comprehension_ext_in {A B : Type} (f g : A -> result B)
      (xs : list A) :
  (forall x, In x xs -> f x = g x) ->
  list_comprehension f xs = list_comprehension g xs.
Proof.
  induction xs as [ | x xs IH]; intros Hext; [reflexivity | ].
  cbn [list_comprehension]. rewrite (Hext x (or_introl eq_refl)).
  rewrite IH; [reflexivity | ]. intros y Hy. apply Hext. now right.
Qed.

Lemma graph_twr_is_candidate_twr
      (self : DroneCalculatorGUI) (diameter battery_cap : R) :
  diameter <> 0 ->
  graph_twr self diameter
  = (m <- candidate_metrics self diameter (motor_kv self) battery_cap
            (num_motors self) ;;
     Ok (m_twr m))
  /\ exists y, graph_twr self diameter = Ok y.
Proof.
  intros Hd.
  destruct (candidate_metrics_total self diameter (motor_kv self)
              battery_cap (num_motors self))
    as (t & ft & Ht & _ & _ & ->); [now left | ].
  cbn [bind m_twr]. unfold graph_twr. cbv zeta.
  unfold default_load_current, default_efficiency. rewrite Ht.
  cbn [bind]. unfold graph_total_weight. rewrite guarded_twr.
  split; [reflexivity | eexists; reflexivity].
Qed.

(** X14: the thrust-to-weight curve is always drawn, and it is the
    optimizer's TWR, not the displayed one: whatever the widgets hold, the
    50 plotted values are the [twr] the search loop computes for each
    sampled diameter with the other widgets unchanged (any battery
    capacity), that is with the speed controllers left out of the weight
    and the default propeller efficiency. *)
Theorem twr_curve_is_optimizer_twr
        (self : DroneCalculatorGUI) (battery_cap : R) :
  exists ys,
    graph_twrs self = Ok ys
    /\ length ys = 50%nat
    /\ list_comprehension
         (fun diameter =>
            m <- candidate_metrics self diameter (motor_kv self)
                   battery_cap (num_motors self) ;;
            Ok (m_twr m))
         (linspace 6 15 50) = Ok ys.
Proof.
  assert (forall d, In d (linspace 6 15 50) -> d <> 0) as Hnz.
  { intros d Hd. apply linspace_bounds in Hd;
      [lra | lra | repeat apply le_n_S; apply Nat.le_0_l]. }
  destruct (list_comprehension_returns (graph_twr self) (linspace 6 15 50))
    as (ys & Hys & Hlen).
  { intros d Hd.
    now destruct (graph_twr_is_candidate_twr self d battery_cap (Hnz d Hd)). }
  exists ys. unfold graph_twrs. cbv zeta.
  split; [exact Hys | ].
  split; [now rewrite Hlen, linspace_length | ].
  rewrite <- Hys. symmetry. apply list_comprehension_ext_in.
  intros d Hd.
  now destruct (graph_twr_is_candidate_twr self d battery_cap (Hnz d Hd)).
Qed.

(** ** More on run_optimization *)

Lemma param_in_flags (self : DroneCalculatorGUI) :
  param_in PropellerDiameter (optimize_params self) = opt_prop_diameter self
  /\ param_in MotorKV (optimize_params self) = opt_motor_kv self
  /\ param_in BatteryCapacity (optimize_params self)
     = opt_battery_capacity self
  /\ param_in NumberOfMotors (optimize_params self) = opt_num_motors self.
Proof.
  unfold optimize_params, param_in.
  destruct (opt_prop_diameter self), (opt_motor_kv self),
    (opt_battery_capacity self), (opt_num_motors self);
    repeat split; reflexivity.
Qed.

Lemma grid_in (self : DroneCalculatorGUI) (d kv cap : R) (k : Z) :
  In (d, kv, cap, k) (grid self)
  <-> In d (prop_diameters self) /\ In kv (motor_kvs self)
      /\ In cap (battery_caps self) /\ In k (motor_counts self).
Proof.
  unfold grid. rewrite in_flat_map. split.
  - intros (d' & Hd & H). apply in_flat_map in H.
    destruct H as (kv' & Hkv & H). apply in_flat_map in H.
    destruct H as (cap' & Hcap & H). apply in_map_iff in H.
    destruct H as (k' & E & Hk). inversion E; subst. tauto.
  - intros (Hd & Hkv & Hcap & Hk).
    exists d. split; [assumption | ]. apply in_flat_map.
    exists kv. split; [assumption | ]. apply in_flat_map.
    exists cap. split; [assumption | ]. apply in_map_iff.
    exists k. split; [reflexivity | assumption].
Qed.




(** X16: a reported best configuration is made of candidate values only:
    each of its four parameters is taken from that parameter's list, so a
    parameter that was not selected is reported with the very value of
    its widget. *)
Theorem found_values_come_from_axes
        (self : DroneCalculatorGUI) (best : BestConfig) :
  run_optimization self = Ok (Found best) ->
  (In (cfg_prop_diameter best) (prop_diameters self)
   /\ In (cfg_motor_kv best) (motor_kvs self)
   /\ In (cfg_battery_capacity best) (battery_caps self)
   /\ In (cfg_motor_count best) (motor_counts self))
  /\ (opt_prop_diameter self = false ->
      cfg_prop_diameter best = prop_diameter self)
  /\ (opt_motor_kv self = false -> cfg_motor_kv best = motor_kv self)
  /\ (opt_battery_capacity self = false ->
      cfg_battery_capacity best = battery_capacity self)
  /\ (opt_num_motors self = false ->
      cfg_motor_count best = num_motors self).
Proof.
  intros Hrun.
  destruct (run_optimization_inv self _ Hrun)
    as [[Habs _] | (_ & st & _ & Hinv & _ & Hout)]; [discriminate Habs | ].
  unfold search_inv in Hinv.
  destruct (snd st) as [b | ]; [ | discriminate Hout].
  injection Hout as ->.
  destruct Hinv as (l1 & c & l2 & m & Hg & _ & _ & -> & _).
  destruct c as [[[d kv] cap] k].
  assert (In (d, kv, cap, k) (grid self)) as Hin
      by (rewrite Hg; apply in_or_app; right; now left).
  apply grid_in in Hin. destruct Hin as (Hd & Hkv & Hcap & Hk).
  cbn [config_of cfg_prop_diameter cfg_motor_kv cfg_battery_capacity
       cfg_motor_count].
  split; [tauto | ].
  destruct (param_in_flags self) as (E1 & E2 & E3 & E4).
  unfold prop_diameters, motor_kvs, battery_caps, motor_counts in *.
  rewrite E1 in Hd. rewrite E2 in Hkv. rewrite E3 in Hcap. rewrite E4 in Hk.
  repeat split; intros Hflag; rewrite Hflag in *;
    match goal with
    | H : In ?x [?y] |- ?x = ?y => destruct H as [H | []]; now symmetry
    end.
Qed.

(** X17: a reported best configuration always has a strictly positive
    score ([best_score] starts at 0 and is only replaced by a larger
    score). *)
Theorem found_score_positive (self : DroneCalculatorGUI) (best : BestConfig) :
  run_optimization self = Ok (Found best) -> 0 < cfg_score best.
Proof.
  intros Hrun.
  destruct (run_optimization_inv self _ Hrun)
    as [[Habs _] | (_ & st & _ & Hinv & _ & Hout)]; [discriminate Habs | ].
  unfold search_inv in Hinv.
  destruct (snd st) as [b | ]; [ | discriminate Hout].
  injection Hout as ->.
  destruct Hinv as (l1 & c & l2 & m & _ & _ & _ & -> & _ & Hpos & _).
  destruct c as [[[d kv] cap] k]. exact Hpos.
Qed.

(** X18: the search reads neither the cost budget, nor the ESC weight, nor
    the two efficiency widgets: whatever values they hold, the outcome is
    the same. *)
Theorem unread_widgets_do_not_matter
        (self : DroneCalculatorGUI) (cost esc pe me : R) :
  run_optimization (set_unread_widgets self cost esc pe me)
  = run_optimization self.
Proof. reflexivity. Qed.

Lemma all_axes_found :
  exists best, run_optimization all_axes_gui = Ok (Found best).
Proof.
  apply found_iff_positive_admissible.
  - discriminate.
  - cbv [all_axes_gui select default_gui prop_diameters optimize_params
         param_in existsb Param_eqb app opt_prop_diameter opt_motor_kv
         opt_battery_capacity opt_num_motors orb].
    cbn [In]. intros [H | [H | [H | [H | []]]]]; lra.
  - destruct (default_combination_metrics true true true true)
      as (m & Hm & Hw & Htwr & Hp & Hft).
    exists (10, 1000, 5000, 4%Z), m.
    split.
    { apply grid_in.
      cbv [all_axes_gui select default_gui prop_diameters motor_kvs
           battery_caps motor_counts optimize_params param_in existsb
           Param_eqb app opt_prop_diameter opt_motor_kv
           opt_battery_capacity opt_num_motors orb].
      cbn [In]. tauto. }
    split; [exact Hm | ].
    unfold admissible, score_of.
    cbv [all_axes_gui select default_gui max_weight min_flight_time].
    repeat split; lra.
Qed.

Lemma found_values_come_from_axes_witness :
  exists best,
    run_optimization all_axes_gui = Ok (Found best)
    /\ In (cfg_prop_diameter best) [8; 10; 12; 14]
    /\ In (cfg_motor_count best) [3; 4; 6; 8]%Z.
Proof.
  destruct all_axes_found as [best Hbest].
  exists best. split; [exact Hbest | ].
  destruct (found_values_come_from_axes all_axes_gui best Hbest)
    as ((Hd & _ & _ & Hk) & _).
  split; [exact Hd | exact Hk].
Defined.

Lemma found_score_positive_witness :
  exists best,
    run_optimization all_axes_gui = Ok (Found best) /\ 0 < cfg_score best.
Proof.
  destruct all_axes_found as [best Hbest].
  exists best. split; [exact Hbest | ].
  exact (found_score_positive all_axes_gui best Hbest).
Defined.

Lemma run_optimization_returns (self : DroneCalculatorGUI) :
  optimize_params self <> [] ->
  (forall c, In c (grid self) -> exists m, metrics_of self c = Ok m) ->
  exists st,
    for_in (grid self) (visit self) (0, None) = Ok st
    /\ search_inv self (grid self) st
    /\ run_optimization self
       = Ok match snd st with
            | Some best_config => Found best_config
            | None => NoValidConfiguration
            end.
Proof.
  intros Hsel Hall.
  destruct (for_in_visit_total self (grid self) (0, None) Hall) as [st Hst].
  exists st. split; [assumption | ].
  destruct (search_inv_for_in self _ [] _ _ (search_inv_init self) Hst)
    as [Hinv _].
  split; [exact Hinv | ].
  rewrite run_optimization_selected by assumption.
  rewrite Hst. cbn [bind]. now destruct (snd st).
Qed.

(** X19: relaxing the constraints never loses a result: if a best
    configuration is reported, then with a larger maximum weight and a
    smaller minimum flight time one is still reported, and its score is at
    least as high. *)
Theorem relaxing_constraints_keeps_result
        (self : DroneCalculatorGUI) (w t : R) (best : BestConfig) :
  max_weight self <= w -> t <= min_flight_time self ->
  run_optimization self = Ok (Found best) ->
  exists best',
    run_optimization (set_constraints self w t) = Ok (Found best')
    /\ cfg_score best <= cfg_score best'.
Proof.
  intros Hw Ht Hrun.
  destruct (run_optimization_inv self _ Hrun)
    as [[Habs _] | (Hsel & st & _ & Hinv & Hall & Hout)];
    [discriminate Habs | ].
  unfold search_inv in Hinv.
  destruct (snd st) as [b | ]; [ | discriminate Hout].
  injection Hout as ->.
  destruct Hinv as (l1 & c & l2 & m & Hg & Hm & Hadm & -> & _ & Hpos & _).
  set (self' := set_constraints self w t).
  assert (admissible self' m) as Hadm'.
  { destruct Hadm as (H1 & H2 & H3). unfold admissible.
    cbn [self' set_constraints max_weight min_flight_time].
    repeat split; lra. }
  assert (In c (grid self')) as Hin.
  { change (grid self') with (grid self). rewrite Hg.
    apply in_or_app. right. now left. }
  destruct (run_optimization_returns self') as (st' & _ & Hinv' & ->);
    [exact Hsel | exact Hall | ].
  unfold search_inv in Hinv'. destruct (snd st') as [b' | ].
  - destruct Hinv'
      as (l1' & c' & l2' & m' & Hg' & Hm' & _ & -> & _ & _ & Hl1 & Hl2).
    eexists. split; [reflexivity | ].
    assert (score_of m <= score_of m') as Hle.
    { rewrite Hg' in Hin. apply in_app_or in Hin.
      destruct Hin as [Hin | [<- | Hin]].
      - left. now apply (Hl1 c m).
      - change (metrics_of self' c') with (metrics_of self c') in Hm'.
        rewrite Hm in Hm'. injection Hm' as <-. right. reflexivity.
      - now apply (Hl2 c m). }
    destruct c as [[[d kv] cap] k], c' as [[[d' kv'] cap'] k'].
    exact Hle.
  - destruct Hinv' as [_ Hnone]. exfalso.
    specialize (Hnone c m Hin Hm Hadm'). lra.
Qed.

Lemma relaxing_constraints_keeps_result_witness :
  exists best best',
    run_optimization all_axes_gui = Ok (Found best)
    /\ run_optimization (set_constraints all_axes_gui 5000 5)
       = Ok (Found best')
    /\ cfg_score best <= cfg_score best'.
Proof.
  destruct all_axes_found as [best Hbest].
  destruct (relaxing_constraints_keeps_result all_axes_gui 5000 5 best)
    as (best' & Hbest' & Hle).
  - cbv [all_axes_gui select default_gui max_weight]. lra.
  - cbv [all_axes_gui select default_gui min_flight_time]. lra.
  - exact Hbest.
  - exists best, best'. repeat split; assumption.
Defined.

(** X20: for widget values within their ranges the search never raises,
    whichever boxes are checked: it reports that nothing is selected
    exactly when no box is checked, and otherwise a best configuration or
    that no valid configuration exists. *)
Theorem in_range_search_completes (self : DroneCalculatorGUI) :
  within_widget_ranges self ->
  exists out,
    run_optimization self = Ok out
    /\ (out = NoParametersSelected <-> optimize_params self = []).
Proof.
  intros (Hd & _).
  assert (optimize_params self = [] \/ optimize_params self <> [])
    as [Hsel | Hsel]
      by (destruct (optimize_params self);
          [now left | right; discriminate]).
  - exists NoParametersSelected. split; [ | tauto].
    unfold run_optimization. now rewrite Hsel.
  - destruct (run_optimization_total self Hsel) as (st & _ & _ & ->).
    + unfold prop_diameters.
      destruct (param_in PropellerDiameter (optimize_params self));
        cbn [In]; intros H;
        repeat (destruct H as [H | H]; [lra | ]); exact H.
    + eexists. split; [reflexivity | ].
      split; [destruct (snd st); discriminate | contradiction].
Qed.

Lemma in_range_search_completes_witness :
  exists out, run_optimization default_gui = Ok out.
Proof.
  destruct (in_range_search_completes default_gui default_gui_within_ranges)
    as (out & Hout & _).
  now exists out.
Defined.

(** ** A reported configuration against its evaluation *)

(** C3: on the default widget values with a maximum weight of 900 g and
    only the battery capacity selected, the search reports a best
    configuration with a stored total weight of 880 g, within the
    constraint, while [update_calculations] on that very configuration
    gives 980 g, above it: the reported configuration does not satisfy the
    weight constraint, because the loop leaves [esc_weight * motor_count]
    out of the weight it tests. *)
Theorem found_configuration_exceeds_max_weight :
  exists best,
    run_optimization tight_gui = Ok (Found best)
    /\ max_weight tight_gui = 900
    /\ cfg_total_weight best = 880
    /\ exists r,
        update_calculations
          (substitute tight_gui
             (cfg_prop_diameter best, cfg_motor_kv best,
              cfg_battery_capacity best, cfg_motor_count best)) = Ok r
        /\ r_total_weight r = 980
        /\ ~ r_total_weight r <= max_weight tight_gui.
Proof.
  assert (exists best, run_optimization tight_gui = Ok (Found best))
    as [best Hbest].
  { apply found_iff_positive_admissible.
    - discriminate.
    - cbv [tight_gui set_constraints select default_gui prop_diameters
           optimize_params param_in existsb Param_eqb app opt_prop_diameter
           opt_motor_kv opt_battery_capacity opt_num_motors orb
           prop_diameter].
      cbn [In]. intros [H | []]. lra.
    - destruct (default_combination_metrics false false true false)
        as (m & Hm & Hw & Htwr & Hp & Hft).
      exists (10, 1000, 5000, 4%Z), m.
      split.
      { apply grid_in.
        cbv [tight_gui set_constraints select default_gui prop_diameters
             motor_kvs battery_caps motor_counts optimize_params param_in
             existsb Param_eqb app opt_prop_diameter opt_motor_kv
             opt_battery_capacity opt_num_motors orb prop_diameter motor_kv
             num_motors].
        cbn [In]. tauto. }
      split; [exact Hm | ].
      unfold admissible, score_of.
      cbv [tight_gui set_constraints select default_gui max_weight
           min_flight_time].
      repeat split; lra. }
  exists best. split; [exact Hbest | ]. split; [reflexivity | ].
  destruct (run_optimization_inv tight_gui _ Hbest)
    as [[Habs _] | (_ & st & _ & Hinv & _ & Hout)]; [discriminate Habs | ].
  unfold search_inv in Hinv.
  destruct (snd st) as [b | ]; [ | discriminate Hout].
  injection Hout as ->.
  destruct Hinv as (l1 & c & l2 & m & Hg & Hm & _ & -> & _).
  destruct c as [[[d kv] cap] k].
  assert (In (d, kv, cap, k) (grid tight_gui)) as Hin
      by (rewrite Hg; apply in_or_app; right; now left).
  apply grid_in in Hin. destruct Hin as (Hd & _ & _ & Hk).
  cbv [tight_gui set_constraints select default_gui prop_diameters
       motor_counts optimize_params param_in existsb Param_eqb app
       opt_prop_diameter opt_motor_kv opt_battery_capacity opt_num_motors
       orb prop_diameter num_motors] in Hd, Hk.
  destruct Hd as [<- | []]. destruct Hk as [<- | []].
  cbn [config_of cfg_total_weight cfg_prop_diameter cfg_motor_kv
       cfg_battery_capacity cfg_motor_count].
  split.
  - cbn [metrics_of] in Hm.
    rewrite (candidate_metrics_weight tight_gui 10 kv cap 4 m Hm).
    cbv [tight_gui set_constraints select default_gui motor_weight
         battery_weight frame_weight flight_controller_weight camera_weight
         additional_payload wiring_weight].
    lra.
  - destruct (update_calculations_total
                (substitute tight_gui (10, kv, cap, 4%Z)))
      as (t & ft & _ & _ & _ & E).
    + left. cbv [substitute prop_diameter]. lra.
    + cbv [substitute tight_gui set_constraints select default_gui
           motor_efficiency]. lra.
    + eexists. split; [exact E | ].
      cbv [r_total_weight substitute tight_gui set_constraints select
           default_gui motor_weight num_motors battery_weight esc_weight
           frame_weight flight_controller_weight camera_weight
           additional_payload wiring_weight max_weight].
      split; lra.
Qed.
